(** * The S3 storage backend of Upspin and its provisioning command

    A shallow embedding of [cloud/storage/s3/s3.go] (the adapter: [New],
    [LinkBase], [Download], [Put], [Delete], [Close]) and of the [clean]
    function and the store configuration of [cmd/upspin-setupstorage-aws].

    The AWS SDK, the Go runtime and the Upspin libraries are not part of the
    repository.  The SDK client is an interface ([sdk.API]) that the adapter
    is parametric in; a map-based double of the service ([fake.api]) is the
    instance used for the properties that speak about stored blobs. *)

From Stdlib Require Import ZArith List Ascii String.
From Stdlib.Strings Require Import Byte.
From stdpp Require Import base option gmap strings list fin_maps.
Import ListNotations.
Local Open Scope string_scope.
Local Open Scope Z_scope.

(** ** Outcomes of Go calls: a normal return or a run-time panic *)

Inductive Panic : Type :=
| NilPointerDereference   (* a method or field used through a nil pointer *)
| InterfaceConversion.    (* an unchecked type assertion [x.(T)] that fails *)

Inductive Outcome (A : Type) : Type :=
| Returned (a : A)
| Panicked (p : Panic).
Arguments Returned {A} a.
Arguments Panicked {A} p.

(** Code that reads and writes a state [S] and may panic. *)
Definition M (S A : Type) : Type := S -> Outcome A * S.

Definition ret {S A : Type} (a : A) : M S A := fun s => (Returned a, s).

Definition bind {S A B : Type} (m : M S A) (k : A -> M S B) : M S B :=
  fun s =>
    match m s with
    | (Returned a, s') => k a s'
    | (Panicked p, s') => (Panicked p, s')
    end.

Definition panic {S A : Type} (p : Panic) : M S A := fun s => (Panicked p, s).
Definition get {S : Type} : M S S := fun s => (Returned s, s).
Definition put {S : Type} (s : S) : M S unit := fun _ => (Returned tt, s).

Notation "'let*' x ':=' m 'in' k" := (bind m (fun x => k))
  (at level 10, x name, m at level 100, k at level 200).
Notation "m ';;' k" := (bind m (fun _ => k))
  (at level 100, k at level 200, right associativity).

(** Dereferencing a Go pointer: nil panics. *)
Definition deref {S A : Type} (p : option A) : M S A :=
  match p with
  | Some a => ret a
  | None => panic NilPointerDereference
  end.

(** ** Go strings and formatting *)

(** The double quote character, which a string literal cannot hold here. *)
Definition dq : string := String (ascii_of_nat 34) EmptyString.

(** [%q] of package fmt quotes its argument with [strconv.Quote], whose
    escaping rests on the Unicode tables of the Go runtime; it is a
    parameter of the development. *)
Class GoFmt : Type := { Quote : string -> string }.

(** ** strings.TrimSpace

    [TrimSpace] removes the leading and the trailing white space runes, as
    [unicode.IsSpace] defines them.  A Go string is a byte sequence; a rune
    is white space exactly when the bytes are its UTF-8 encoding, and every
    other byte sequence (invalid encodings included) decodes to a rune that
    is not white space.  The table lists the encodings. *)

Definition space_runes : list (list nat) :=
  [ [9]; [10]; [11]; [12]; [13]; [32]        (* \t \n \v \f \r and space *)
  ; [194; 133]; [194; 160]                   (* U+0085, U+00A0 *)
  ; [225; 154; 128]                          (* U+1680 *)
  ; [226; 128; 128]; [226; 128; 129]; [226; 128; 130]; [226; 128; 131]
  ; [226; 128; 132]; [226; 128; 133]; [226; 128; 134]; [226; 128; 135]
  ; [226; 128; 136]; [226; 128; 137]; [226; 128; 138]   (* U+2000..U+200A *)
  ; [226; 128; 168]; [226; 128; 169]; [226; 128; 175]   (* U+2028 U+2029 U+202F *)
  ; [226; 129; 159]                          (* U+205F *)
  ; [227; 128; 128] ]%nat.                   (* U+3000 *)

Fixpoint has_prefix (p : list nat) (s : list ascii) : bool :=
  match p, s with
  | [], _ => true
  | n :: p', a :: s' => Nat.eqb n (nat_of_ascii a) && has_prefix p' s'
  | _ :: _, [] => false
  end.

(** Width in bytes of the white space rune that [s] starts with (read in
    the direction of the table [tbl]); 0 when it starts with none. *)
Fixpoint space_width (tbl : list (list nat)) (s : list ascii) : nat :=
  match tbl with
  | [] => 0%nat
  | p :: tbl' => if has_prefix p s then length p else space_width tbl' s
  end.

Fixpoint trim_left (tbl : list (list nat)) (s : list ascii) : list ascii :=
  match s with
  | [] => []
  | _ :: r1 =>
    match space_width tbl s with
    | 0%nat => s
    | 1%nat => trim_left tbl r1
    | 2%nat => match r1 with
               | _ :: r2 => trim_left tbl r2
               | [] => s
               end
    | _ => match r1 with
           | _ :: _ :: r3 => trim_left tbl r3
           | _ => s
           end
    end
  end.

Definition TrimSpace (s : string) : string :=
  let l := trim_left space_runes (list_ascii_of_string s) in
  let r := trim_left (map (@rev nat) space_runes) (rev l) in
  string_of_list_ascii (rev r).

(** ** Errors

    Package upspin.io/errors: [errors.E] builds an [Error] from the
    operation, the kind and the underlying error. *)

Inductive Kind : Type :=
| Other | Invalid | Permission | IO | Exist | NotExist.

(** The values of Go's [error] interface that occur.  An error of the SDK
    either implements [awserr.RequestFailure], and then has an HTTP status
    code, or it does not. *)
Inductive error : Type :=
| errorString (s : string)                       (* errors.Errorf *)
| plainError (text : string)                     (* no status code *)
| requestFailure (text : string) (status : Z).   (* awserr.RequestFailure *)

(** [err.Error()], what [%s] prints. *)
Definition error_text (e : error) : string :=
  match e with
  | errorString s => s
  | plainError t => t
  | requestFailure t _ => t
  end.

(** [sc, ok := err.(awserr.RequestFailure)], then [sc.StatusCode()]. *)
Definition StatusCode (e : error) : option Z :=
  match e with
  | requestFailure _ c => Some c
  | _ => None
  end.

Record Error : Type := E { Op : string; kind : Kind; Err : error }.

(** ** The SDK: configuration, client handle, requests *)

Module aws.
Record Config : Type := {
  Region : option string;
  Endpoint : option string;
  S3ForcePathStyle : option bool
}.
End aws.

Module session.
Inductive SharedConfigState : Type :=
| SharedConfigStateFromEnv | SharedConfigDisable | SharedConfigEnable.

Record Options : Type := {
  Config : aws.Config;
  SharedConfigState_ : SharedConfigState
}.

Record Session : Type := { sess_Config : aws.Config }.
End session.

Module sdk.
(** The client [*s3.S3]: its configuration and resolved endpoint. *)
Record S3 : Type := { Config : aws.Config; Endpoint : string }.

Record GetObjectInput : Type := { get_Bucket : string; get_Key : string }.

Record UploadInput : Type := {
  ACL : string;
  Bucket : string;
  Key : string;
  Body : list byte
}.

Record DeleteObjectInput : Type := { del_Bucket : string; del_Key : string }.

(** What the adapter uses of the SDK, over a remote state [R]:
    [session.NewSessionWithOptions], [s3.New], the managed
    [Uploader.Upload] and [Downloader.Download] and [S3.DeleteObject]. *)
Class API (R : Type) : Type := {
  NewSessionWithOptions : session.Options -> R -> session.Session + error;
  New : session.Session -> S3;
  Upload : S3 -> UploadInput -> R -> option error * R;
  Download : S3 -> GetObjectInput -> R -> (list byte + error) * R;
  DeleteObject : S3 -> DeleteObjectInput -> R -> option error * R
}.
End sdk.

(** Every use of the SDK is recorded. *)
Inductive Call : Type :=
| CallNewSession (o : session.Options)
| CallUpload (c : sdk.S3) (i : sdk.UploadInput)
| CallDownload (c : sdk.S3) (i : sdk.GetObjectInput)
| CallDeleteObject (c : sdk.S3) (i : sdk.DeleteObjectInput).

Record World (R : Type) : Type := { remote : R; calls : list Call }.
Arguments remote {R} w.
Arguments calls {R} w.

(** ** The adapter *)

Definition ACLPublicRead : string := "public-read".
Definition ACLPrivate : string := "private".

(** Keys used for storing dial options. *)
Module opt.
Definition regionName : string := "s3Region".
Definition bucketName : string := "s3BucketName".
Definition defaultACL : string := "defaultACL".
Definition endpointURL : string := "endpoint".
Definition pathstyle : string := "pathstyle".
End opt.

Record s3Impl : Type := {
  service : option sdk.S3;
  bucketName : string;
  defaultWriteACL : string
}.

(** The state a method of the adapter runs in: the adapter object its
    receiver points to, and the world. *)
Record State (R : Type) : Type := { adapter : s3Impl; world : World R }.
Arguments adapter {R} s.
Arguments world {R} s.

Section Adapter.
Context {fmt : GoFmt} {R : Type} {api : sdk.API R}.

(** A request to the service through the SDK: one call, recorded. *)
Definition invoke {A : Type} (c : Call) (f : R -> A * R) : M (World R) A :=
  fun w =>
    let (a, r) := f (remote w) in
    (Returned a, {| remote := r; calls := calls w ++ [c] |}).

(** Code of the world run from a method of the adapter. *)
Definition lift {A : Type} (m : M (World R) A) : M (State R) A :=
  fun st =>
    let (o, w) := m (world st) in
    (o, {| adapter := adapter st; world := w |}).

(** Reading the receiver [s] and assigning to it. *)
Definition receiver : M (State R) s3Impl :=
  fun st => (Returned (adapter st), st).

Definition assign (s : s3Impl) : M (State R) unit :=
  fun st => (Returned tt, {| adapter := s; world := world st |}).

(** New initializes a Storage implementation that stores data to Amazon
    Simple Storage Service.  [opts] is the map [opts.Opts]. *)
Definition New (opts : gmap string string) : M (World R) (s3Impl + Error) :=
  let op := "cloud/storage/amazons3.New" in
  let required key := errorString (Quote key +:+ " option is required") in
  match opts !! opt.regionName with
  | None => ret (inr (E op Invalid (required opt.regionName)))
  | Some region =>
  let endpoint := opts !! opt.endpointURL in
  match opts !! opt.bucketName with
  | None => ret (inr (E op Invalid (required opt.bucketName)))
  | Some bucket =>
  match opts !! opt.defaultACL with
  | None => ret (inr (E op Invalid (required opt.defaultACL)))
  | Some acl =>
  match opts !! opt.pathstyle with
  | None => ret (inr (E op Invalid (required opt.pathstyle)))
  | Some shouldPathstyle =>
  let validated (force : bool) : M (World R) (s3Impl + Error) :=
    let config := {| aws.Region := Some region;
                     aws.Endpoint := endpoint;
                     aws.S3ForcePathStyle := Some force |} in
    if negb (String.eqb acl ACLPrivate) && negb (String.eqb acl ACLPublicRead)
    then ret (inr (E op Invalid (errorString
           ("valid ACL values for S3 are " +:+ ACLPrivate +:+ " and "
            +:+ ACLPublicRead))))
    else
      let options := {| session.Config := config;
                        session.SharedConfigState_ := session.SharedConfigEnable |} in
      let* r := invoke (CallNewSession options)
                  (fun rs => (sdk.NewSessionWithOptions options rs, rs)) in
      match r with
      | inr err => ret (inr (E op IO (errorString
          ("unable to create Amazon session: " +:+ error_text err))))
      | inl sess =>
          ret (inl {| service := Some (sdk.New sess);
                      bucketName := bucket;
                      defaultWriteACL := acl |})
      end in
  if String.eqb (TrimSpace shouldPathstyle) "true" then validated true
  else if String.eqb (TrimSpace shouldPathstyle) "false" then validated false
  else ret (inr (E op Invalid (errorString
         (Quote opt.pathstyle +:+ " must be true or false"))))
  end end end end.

(** LinkBase implements Storage. *)
Definition LinkBase : M (State R) (string * option Error) :=
  let* s := receiver in
  let* svc := deref (service s) in
  ret (sdk.Endpoint svc +:+ "/" +:+ bucketName s +:+ "/", None).

(** Download implements Storage. *)
Definition Download (ref : string) : M (State R) (list byte + Error) :=
  let op := "cloud/storage/amazons3.Download" in
  let* s := receiver in
  let* svc := deref (service s) in
  let input := {| sdk.get_Bucket := bucketName s; sdk.get_Key := ref |} in
  let* r := lift (invoke (CallDownload svc input) (sdk.Download svc input)) in
  match r with
  | inr err =>
      match StatusCode err with
      | Some 404 => ret (inr (E op NotExist err))
      | _ => ret (inr (E op IO (errorString
               ("unable to download ref " +:+ Quote ref +:+ " from bucket "
                +:+ Quote (bucketName s) +:+ ": " +:+ error_text err))))
      end
  | inl buf => ret (inl buf)
  end.

(** Put implements Storage. *)
Definition Put (ref : string) (contents : list byte) : M (State R) (option Error) :=
  let op := "cloud/storage/amazons3.Put" in
  let* s := receiver in
  let* svc := deref (service s) in
  let input := {| sdk.ACL := defaultWriteACL s;
                  sdk.Bucket := bucketName s;
                  sdk.Key := ref;
                  sdk.Body := contents |} in
  let* err := lift (invoke (CallUpload svc input) (sdk.Upload svc input)) in
  match err with
  | Some err => ret (Some (E op IO (errorString
      ("unable to upload ref " +:+ Quote ref +:+ " to bucket "
       +:+ Quote (bucketName s) +:+ ": " +:+ error_text err))))
  | None => ret None
  end.

(** Delete implements Storage. *)
Definition Delete (ref : string) : M (State R) (option Error) :=
  let op := "cloud/storage/amazons3.Delete" in
  let* s := receiver in
  let* svc := deref (service s) in
  let input := {| sdk.del_Bucket := bucketName s; sdk.del_Key := ref |} in
  let* err := lift (invoke (CallDeleteObject svc input) (sdk.DeleteObject svc input)) in
  match err with
  | Some err => ret (Some (E op IO (errorString
      ("unable to delete ref " +:+ Quote ref +:+ " from bucket "
       +:+ Quote (bucketName s) +:+ ": " +:+ error_text err))))
  | None => ret None
  end.

(** Close implements Storage. *)
Definition Close : M (State R) unit :=
  let* s := receiver in
  assign {| service := None;
            bucketName := bucketName s;
            defaultWriteACL := defaultWriteACL s |};;
  let* s := receiver in
  assign {| service := service s;
            bucketName := EmptyString;
            defaultWriteACL := defaultWriteACL s |}.

(** The calls of the Storage interface other than Close, and sequences of
    them on one adapter. *)
Inductive Method : Type :=
| OpPut (ref : string) (contents : list byte)
| OpDownload (ref : string)
| OpDelete (ref : string)
| OpLinkBase.

Inductive Result : Type :=
| ResPut (err : option Error)
| ResDownload (r : list byte + Error)
| ResDelete (err : option Error)
| ResLinkBase (r : string * option Error).

Definition exec (o : Method) : M (State R) Result :=
  match o with
  | OpPut ref contents => let* e := Put ref contents in ret (ResPut e)
  | OpDownload ref => let* r := Download ref in ret (ResDownload r)
  | OpDelete ref => let* e := Delete ref in ret (ResDelete e)
  | OpLinkBase => let* r := LinkBase in ret (ResLinkBase r)
  end.

Fixpoint run (ops : list Method) : M (State R) (list Result) :=
  match ops with
  | [] => ret []
  | o :: ops' =>
      let* r := exec o in
      let* rs := run ops' in
      ret (r :: rs)
  end.

(** The state after one recorded call [c] that left the remote side [r]. *)
Definition after (st : State R) (c : Call) (r : R) : State R :=
  {| adapter := adapter st;
     world := {| remote := r; calls := calls (world st) ++ [c] |} |}.

Definition closed (s : s3Impl) : s3Impl :=
  {| service := None; bucketName := EmptyString; defaultWriteACL := defaultWriteACL s |}.

(** How [Download] classifies the error of the client. *)
Definition download_error (s : s3Impl) (ref : string) (err : error) : Error :=
  match StatusCode err with
  | Some 404 => E "cloud/storage/amazons3.Download" NotExist err
  | _ => E "cloud/storage/amazons3.Download" IO (errorString
           ("unable to download ref " +:+ Quote ref +:+ " from bucket "
            +:+ Quote (bucketName s) +:+ ": " +:+ error_text err))
  end.

End Adapter.

(** ** A double of the service

    The remote side as the tests use it: buckets that map refs to blobs.  A
    request first takes the next entry of a script of transport failures, so
    that any call can fail with any error; otherwise it acts on the bucket it
    names.  Reading a missing key, or addressing a missing bucket, is an HTTP
    404 request failure; deleting a missing key succeeds. *)
Module fake.

Record Remote : Type := {
  buckets : gmap string (gmap string (list byte));
  faults : list (option error);
  credentials : option error     (* [Some e]: no session can be created *)
}.

Definition NoSuchBucket : error :=
  requestFailure "NoSuchBucket: The specified bucket does not exist" 404.
Definition NoSuchKey : error :=
  requestFailure "NoSuchKey: The specified key does not exist." 404.

Definition next_fault (r : Remote) : option error * Remote :=
  match faults r with
  | [] => (None, r)
  | f :: fs => (f, {| buckets := buckets r; faults := fs; credentials := credentials r |})
  end.

Definition set_buckets (b : gmap string (gmap string (list byte))) (r : Remote) : Remote :=
  {| buckets := b; faults := faults r; credentials := credentials r |}.

Definition NewSessionWithOptions (o : session.Options) (r : Remote)
  : session.Session + error :=
  match credentials r with
  | Some e => inr e
  | None => inl {| session.sess_Config := session.Config o |}
  end.

Definition New (sess : session.Session) : sdk.S3 :=
  let cfg := session.sess_Config sess in
  {| sdk.Config := cfg;
     sdk.Endpoint :=
       match aws.Endpoint cfg with
       | Some e => e
       | None => "https://s3." +:+ default EmptyString (aws.Region cfg) +:+ ".amazonaws.com"
       end |}.

Definition Upload (c : sdk.S3) (i : sdk.UploadInput) (r : Remote) : option error * Remote :=
  let (f, r) := next_fault r in
  match f with
  | Some e => (Some e, r)
  | None =>
      match buckets r !! sdk.Bucket i with
      | None => (Some NoSuchBucket, r)
      | Some objs =>
          (None, set_buckets (<[sdk.Bucket i := <[sdk.Key i := sdk.Body i]> objs]> (buckets r)) r)
      end
  end.

Definition Download (c : sdk.S3) (i : sdk.GetObjectInput) (r : Remote)
  : (list byte + error) * Remote :=
  let (f, r) := next_fault r in
  match f with
  | Some e => (inr e, r)
  | None =>
      match buckets r !! sdk.get_Bucket i with
      | None => (inr NoSuchBucket, r)
      | Some objs =>
          match objs !! sdk.get_Key i with
          | None => (inr NoSuchKey, r)
          | Some blob => (inl blob, r)
          end
      end
  end.

Definition DeleteObject (c : sdk.S3) (i : sdk.DeleteObjectInput) (r : Remote)
  : option error * Remote :=
  let (f, r) := next_fault r in
  match f with
  | Some e => (Some e, r)
  | None =>
      match buckets r !! sdk.del_Bucket i with
      | None => (Some NoSuchBucket, r)
      | Some objs =>
          (None, set_buckets (<[sdk.del_Bucket i := delete (sdk.del_Key i) objs]> (buckets r)) r)
      end
  end.

#[export] Instance api : sdk.API Remote := {|
  sdk.NewSessionWithOptions := NewSessionWithOptions;
  sdk.New := New;
  sdk.Upload := Upload;
  sdk.Download := Download;
  sdk.DeleteObject := DeleteObject
|}.

(** Quoting as [%q] does it for printable ASCII text without quotes and
    backslashes, which is all the examples below use. *)
#[export] Instance fmt : GoFmt := {| Quote := fun s => dq +:+ s +:+ dq |}.

(** The blob stored under [ref] in [bucket], if any. *)
Definition blob (bucket ref : string) (r : Remote) : option (list byte) :=
  buckets r !! bucket ≫= (.!! ref).

End fake.

(** ** The provisioning command [upspin setupstorage-aws] *)
Module setup.

(** The requests [clean] sends to S3 and IAM. *)
Inductive Request : Type :=
| DeleteBucket (Region Bucket : string)
| RemoveRoleFromInstanceProfile (InstanceProfileName RoleName : string)
| DeleteInstanceProfile (InstanceProfileName : string)
| DeleteRolePolicy (PolicyName RoleName : string)
| DeleteRole (RoleName : string).

(** What the operator sees (the lines of the logger) and what was sent. *)
Record Console : Type := { output : list string; sent : list Request }.

Section Clean.
(** The answer of the control plane to each request: an error or none. *)
Variable cloud : Request -> option error.

Definition send (r : Request) : M Console (option error) :=
  fun c => (Returned (cloud r), {| output := output c; sent := sent c ++ [r] |}).

Definition log_Print (line : string) : M Console unit :=
  fun c => (Returned tt, {| output := output c ++ [line]; sent := sent c |}).

(** [err.(awserr.RequestFailure).StatusCode()]: the assertion is unchecked
    and panics on an error that is no request failure. *)
Definition assertStatusCode (err : error) : M Console Z :=
  match StatusCode err with
  | Some c => ret c
  | None => panic InterfaceConversion
  end.

(** The body every step shares:
    [if err != nil { if err.(awserr.RequestFailure).StatusCode() != 404 { log.Printf(...) } }] *)
Definition report (err : option error) (what : string) : M Console unit :=
  match err with
  | Some err =>
      let* sc := assertStatusCode err in
      if negb (sc =? 404)
      then log_Print (what +:+ ": " +:+ error_text err)
      else ret tt
  | None => ret tt
  end.

(** clean makes a best-effort attempt at cleaning up entities created by
    this command. *)
Definition clean (roleName bucketName region : string) : M Console unit :=
  log_Print "Cleaning up...";;
  let* err := send (DeleteBucket region bucketName) in
  report err ("unable to delete bucket " +:+ bucketName);;
  let* err := send (RemoveRoleFromInstanceProfile roleName roleName) in
  report err ("unable to remove role from instance profile " +:+ roleName);;
  let* err := send (DeleteInstanceProfile roleName) in
  report err ("unable to delete instance profile " +:+ roleName);;
  let* err := send (DeleteRolePolicy "upspin-access-policy" roleName) in
  report err ("unable to delete role " +:+ roleName);;
  let* err := send (DeleteRole roleName) in
  report err ("unable to delete role " +:+ roleName).

End Clean.

(** The store configuration [main] writes into the server configuration. *)
Definition StoreConfig (bucketName region : string) : list string :=
  [ "backend=S3";
    "defaultACL=public-read";
    "s3BucketName=" +:+ bucketName;
    "s3Region=" +:+ region ].

End setup.

(** ** What the specification says of [New], in its own words

    [spec_invalid] follows the specification: a required option is absent,
    or the flag is neither the literal true nor the literal false, or the
    ACL is outside the enumeration.  [trimmed_invalid] differs in the flag
    only, which it compares after [TrimSpace]. *)
Definition required_absent (opts : gmap string string) : Prop :=
  opts !! opt.regionName = None \/ opts !! opt.bucketName = None \/
  opts !! opt.defaultACL = None \/ opts !! opt.pathstyle = None.

Definition acl_outside (opts : gmap string string) : Prop :=
  exists acl, opts !! opt.defaultACL = Some acl /\
              acl <> ACLPublicRead /\ acl <> ACLPrivate.

Definition spec_invalid (opts : gmap string string) : Prop :=
  required_absent opts \/
  (exists p, opts !! opt.pathstyle = Some p /\ p <> "true" /\ p <> "false") \/
  acl_outside opts.

Definition trimmed_invalid (opts : gmap string string) : Prop :=
  required_absent opts \/
  (exists p, opts !! opt.pathstyle = Some p /\
             TrimSpace p <> "true" /\ TrimSpace p <> "false") \/
  acl_outside opts.

(** A call that returned an error of kind [k]. *)
Definition fails_with {A : Type} (k : Kind) (o : Outcome (A + Error)) : Prop :=
  exists e, o = Returned (inr e) /\ kind e = k.

(** A method of the Storage interface that names [ref] and writes it. *)
Definition writes (ref : string) (o : Method) : bool :=
  match o with
  | OpPut r _ => String.eqb r ref
  | OpDelete r => String.eqb r ref
  | _ => false
  end.

Definition puts (ref : string) (o : Method) : bool :=
  match o with
  | OpPut r _ => String.eqb r ref
  | _ => false
  end.

(** The next request meets no scripted transport failure. *)
Definition no_fault (r : fake.Remote) : Prop := fst (fake.next_fault r) = None.

(** The blob the adapter of [st] would read under [ref]. *)
Definition stored (st : State fake.Remote) (ref : string) : option (list byte) :=
  fake.blob (bucketName (adapter st)) ref (remote (world st)).

(** What [clean] prints for a request answered with a request failure. *)
Definition reported (cloud : setup.Request -> option error)
    (r : setup.Request) (what : string) : list string :=
  match cloud r with
  | Some e =>
      match StatusCode e with
      | Some code => if code =? 404 then [] else [what +:+ ": " +:+ error_text e]
      | None => []
      end
  | None => []
  end.

(** ** Inputs of the examples *)

Definition bytes_hello : list byte := [x68; x65; x6c; x6c; x6f].

Definition options (flag : string) : gmap string string :=
  <[opt.regionName := "us-east-1"]>
    (<[opt.bucketName := "test"]>
       (<[opt.defaultACL := "private"]>
          (<[opt.pathstyle := flag]> ∅))).

Definition remote0 : fake.Remote :=
  {| fake.buckets := {[ "test" := ∅ ]}; fake.faults := []; fake.credentials := None |}.

Definition world0 : World fake.Remote := {| remote := remote0; calls := [] |}.

Definition client0 : sdk.S3 :=
  fake.New {| session.sess_Config :=
                {| aws.Region := Some "us-east-1";
                   aws.Endpoint := None;
                   aws.S3ForcePathStyle := Some false |} |}.

Definition adapter0 : s3Impl :=
  {| service := Some client0; bucketName := "test"; defaultWriteACL := "private" |}.

Definition state0 : State fake.Remote := {| adapter := adapter0; world := world0 |}.

(** A world in which the next request fails with [e]. *)
Definition failing (e : error) : State fake.Remote :=
  {| adapter := adapter0;
     world := {| remote := {| fake.buckets := {[ "test" := ∅ ]};
                              fake.faults := [Some e];
                              fake.credentials := None |};
                 calls := [] |} |}.

(** A control plane that cannot be reached for the first request. *)
Definition unreachable (r : setup.Request) : option error :=
  match r with
  | setup.DeleteBucket _ _ => Some (plainError "RequestError: send request failed")
  | _ => None
  end.

Definition console0 : setup.Console := {| setup.output := []; setup.sent := [] |}.

(** ** Further vocabulary for the adapter *)

(** The option keys [New] reads. *)
Definition keys_read : list string :=
  [opt.regionName; opt.endpointURL; opt.bucketName; opt.defaultACL; opt.pathstyle].

(** The session options [New] builds from valid options. *)
Definition session_options (region : string) (endpoint : option string)
    (flag : string) : session.Options :=
  {| session.Config :=
       {| aws.Region := Some region;
          aws.Endpoint := endpoint;
          aws.S3ForcePathStyle := Some (String.eqb (TrimSpace flag) "true") |};
     session.SharedConfigState_ := session.SharedConfigEnable |}.

(** The use of the SDK a method makes for an adapter [s] with client [svc]:
    one call of the managed uploader or downloader or of [DeleteObject]. *)
Definition call_of (s : s3Impl) (svc : sdk.S3) (o : Method) : list Call :=
  match o with
  | OpPut ref contents =>
      [CallUpload svc {| sdk.ACL := defaultWriteACL s; sdk.Bucket := bucketName s;
                         sdk.Key := ref; sdk.Body := contents |}]
  | OpDownload ref =>
      [CallDownload svc {| sdk.get_Bucket := bucketName s; sdk.get_Key := ref |}]
  | OpDelete ref =>
      [CallDeleteObject svc {| sdk.del_Bucket := bucketName s; sdk.del_Key := ref |}]
  | OpLinkBase => []
  end.

(** ** Further vocabulary for the clean-up *)

(** The requests of [clean], in order, each with the start of the line
    printed when it fails. *)
Definition cleanup_steps (roleName bucketName region : string)
  : list (setup.Request * string) :=
  [ (setup.DeleteBucket region bucketName,
     "unable to delete bucket " +:+ bucketName);
    (setup.RemoveRoleFromInstanceProfile roleName roleName,
     "unable to remove role from instance profile " +:+ roleName);
    (setup.DeleteInstanceProfile roleName,
     "unable to delete instance profile " +:+ roleName);
    (setup.DeleteRolePolicy "upspin-access-policy" roleName,
     "unable to delete role " +:+ roleName);
    (setup.DeleteRole roleName,
     "unable to delete role " +:+ roleName) ].

(** A request that is answered with success or with a request failure. *)
Definition status_coded (cloud : setup.Request -> option error)
    (r : setup.Request) : Prop :=
  forall e, cloud r = Some e -> is_Some (StatusCode e).

(** ** The provisioning run of [upspin setupstorage-aws] *)

Module iam.
(** [*iam.Role] as the command uses it: the name the service returned. *)
Record Role : Type := { RoleName : option string }.
End iam.

Module setupstorage.

Definition nl : string := String (ascii_of_nat 10) EmptyString.
Definition tab : string := String (ascii_of_nat 9) EmptyString.

(** The trust policy of the role, byte for byte. *)
Definition rolePolicyDocument : string :=
  "{" +:+ nl +:+ tab +:+ tab +:+ dq +:+ "Version" +:+ dq +:+ ": " +:+ dq +:+
  "2012-10-17" +:+ dq +:+ "," +:+ nl +:+ tab +:+ "  " +:+ dq +:+
  "Statement" +:+ dq +:+ ": [" +:+ nl +:+ tab +:+ "    {" +:+ nl +:+ tab +:+
  "      " +:+ dq +:+ "Action" +:+ dq +:+ ": " +:+ dq +:+
  "sts:AssumeRole" +:+ dq +:+ "," +:+ nl +:+ tab +:+ "      " +:+ dq +:+
  "Effect" +:+ dq +:+ ": " +:+ dq +:+ "Allow" +:+ dq +:+ "," +:+ nl +:+
  tab +:+ "      " +:+ dq +:+ "Principal" +:+ dq +:+ ": {" +:+ nl +:+ tab +:+
  "          " +:+ dq +:+ "Service" +:+ dq +:+ ": " +:+ dq +:+
  "ec2.amazonaws.com" +:+ dq +:+ nl +:+ tab +:+ "      }" +:+ nl +:+ tab +:+
  tab +:+ "  }" +:+ nl +:+ tab +:+ "  ]" +:+ nl +:+ tab +:+ "}".

(** The requests of the provisioning run to IAM and S3. *)
Inductive Request : Type :=
| CreateRole (RoleName Description AssumeRolePolicyDocument : string)
| CreateInstanceProfile (InstanceProfileName : option string)
| AddRoleToInstanceProfile (InstanceProfileName RoleName : option string)
| AttachRolePolicy (PolicyArn : string) (RoleName : option string)
| CreateBucket (Region Bucket : string).

(** An answer: the output, of which only the role of [CreateRole] is used,
    or an error. *)
Inductive Response : Type :=
| Done (role : option iam.Role)
| Failed (err : error).

(** [subcmd.ServerConfig]: the store configuration and the other fields. *)
Record ServerConfig (Rest : Type) : Type := {
  rest : Rest;
  StoreConfig : list string
}.
Arguments rest {Rest} s.
Arguments StoreConfig {Rest} s.

(** The command line after [ParseFlags]: the flags and [flag.Args()]. *)
Record Flags : Type := {
  where_ : string;
  domain : string;
  region : string;
  roleName : string;
  clean : bool;
  args : list string
}.

(** How the process ends: [s.Exitf], [s.ExitNow], or an exit inside
    [ReadServerConfig] or [WriteServerConfig] of package subcmd. *)
Inductive Exit : Type :=
| Exitf (msg : string)
| ExitNow
| ExitInSubcmd.

(** What the run acts on: the logger and the clean-up requests, the
    requests of the provisioning, standard error, and the files. *)
Record Machine (F : Type) : Type := {
  console : setup.Console;
  requests : list Request;
  stderr : list string;
  files : F
}.
Arguments console {F} m.
Arguments requests {F} m.
Arguments stderr {F} m.
Arguments files {F} m.

(** What the run meets: whether a session can be created, the answers of
    the control plane, [filepath.Join], and the configuration reader and
    writer of package subcmd, which exit when they fail ([None]). *)
Record Env (F Rest : Type) : Type := {
  session_error : option error;
  respond : Request -> Response;
  cloud : setup.Request -> option error;
  Join : string -> string -> string;
  ReadServerConfig : string -> F -> option (ServerConfig Rest);
  WriteServerConfig : string -> ServerConfig Rest -> F -> option F
}.
Arguments session_error {F Rest} e.
Arguments respond {F Rest} e.
Arguments cloud {F Rest} e.
Arguments Join {F Rest} e.
Arguments ReadServerConfig {F Rest} e.
Arguments WriteServerConfig {F Rest} e.

Section Main.
Context {F Rest : Type} (env : Env F Rest).

Definition send (r : Request) : M (Machine F) Response :=
  fun m => (Returned (respond env r),
            {| console := console m; requests := requests m ++ [r];
               stderr := stderr m; files := files m |}).

Definition on_console {A : Type} (c : M setup.Console A) : M (Machine F) A :=
  fun m =>
    let (o, c') := c (console m) in
    (o, {| console := c'; requests := requests m;
           stderr := stderr m; files := files m |}).

Definition Fprintf_stderr (line : string) : M (Machine F) unit :=
  fun m => (Returned tt,
            {| console := console m; requests := requests m;
               stderr := stderr m ++ [line]; files := files m |}).

Definition readConfig (cfgPath : string) : M (Machine F) (option (ServerConfig Rest)) :=
  fun m => (Returned (ReadServerConfig env cfgPath (files m)), m).

Definition writeConfig (cfgPath : string) (cfg : ServerConfig Rest)
  : M (Machine F) bool :=
  fun m =>
    match WriteServerConfig env cfgPath cfg (files m) with
    | Some f => (Returned true,
                 {| console := console m; requests := requests m;
                    stderr := stderr m; files := f |})
    | None => (Returned false, m)
    end.

Definition createRoleAccount (name : string)
  : M (Machine F) (option iam.Role + error) :=
  let* output := send (CreateRole name
                         "Used for storing data from the Upspin service"
                         rolePolicyDocument) in
  match output with
  | Failed err => ret (inr err)
  | Done role => ret (inl role)
  end.

Definition createInstanceProfile (role : option iam.Role)
  : M (Machine F) (option error) :=
  let* r := deref role in
  let* output := send (CreateInstanceProfile (iam.RoleName r)) in
  match output with
  | Failed err => ret (Some err)
  | Done _ =>
      let* r := deref role in
      let* output := send (AddRoleToInstanceProfile (iam.RoleName r) (iam.RoleName r)) in
      match output with
      | Failed err => ret (Some err)
      | Done _ => ret None
      end
  end.

Definition attachRolePolicy (role : option iam.Role) (bucketName : string)
  : M (Machine F) (option error) :=
  let* r := deref role in
  let* output := send (AttachRolePolicy
                         "arn:aws:iam::aws:policy/AmazonS3FullAccess"
                         (iam.RoleName r)) in
  match output with
  | Failed err => ret (Some err)
  | Done _ => ret None
  end.

Definition createBucket (role : option iam.Role) (region bucketName : string)
  : M (Machine F) (option error) :=
  let* output := send (CreateBucket region bucketName) in
  match output with
  | Failed err => ret (Some err)
  | Done _ => ret None
  end.

(** [main], from the creation of the session on; [fl] is what
    [ParseFlags] left. *)
Definition main (fl : Flags) : M (Machine F) Exit :=
  match session_error env with
  | Some err => ret (Exitf ("unable to create session: " +:+ error_text err))
  | None =>
  if negb (Nat.eqb (length (args fl)) 1)
  then ret (Exitf "a single bucket name must be provided")
  else if Nat.eqb (String.length (domain fl)) 0
  then ret (Exitf "the -domain flag must be provided")
  else
  let bucketName := hd EmptyString (args fl) in
  if clean fl
  then on_console (setup.clean (cloud env) (roleName fl) bucketName (region fl));;
       ret ExitNow
  else
  let cfgPath := Join env (where_ fl) (domain fl) in
  let* cfg := readConfig cfgPath in
  match cfg with
  | None => ret ExitInSubcmd
  | Some cfg =>
  let* r := createRoleAccount (roleName fl) in
  match r with
  | inr err => ret (Exitf ("unable to create role account: " +:+ error_text err))
  | inl role =>
  let* err := createInstanceProfile role in
  match err with
  | Some err => ret (Exitf ("unable to create instance profile: " +:+ error_text err))
  | None =>
  let* err := createBucket role (region fl) bucketName in
  match err with
  | Some err => ret (Exitf ("unable to create S3 bucket: " +:+ error_text err))
  | None =>
  let* err := attachRolePolicy role bucketName in
  match err with
  | Some err => ret (Exitf ("unable to attach role policy: " +:+ error_text err))
  | None =>
  let cfg := {| rest := rest cfg;
                StoreConfig := setup.StoreConfig bucketName (region fl) |} in
  let* written := writeConfig cfgPath cfg in
  if written
  then Fprintf_stderr
         ("You should now deploy the upspinserver binary and run 'upspin setupserver'."
          +:+ nl);;
       ret ExitNow
  else ret ExitInSubcmd
  end end end end end end.

End Main.

(** The requests of a run in which every step succeeds, for the role [r]
    that [CreateRole] returned. *)
Definition provisioning (fl : Flags) (r : iam.Role) : list Request :=
  [ CreateRole (roleName fl) "Used for storing data from the Upspin service"
      rolePolicyDocument;
    CreateInstanceProfile (iam.RoleName r);
    AddRoleToInstanceProfile (iam.RoleName r) (iam.RoleName r);
    CreateBucket (region fl) (hd EmptyString (args fl));
    AttachRolePolicy "arn:aws:iam::aws:policy/AmazonS3FullAccess" (iam.RoleName r) ].

(** Flags that pass the checks of [main]. *)
Definition well_formed (fl : Flags) : Prop :=
  length (args fl) = 1%nat /\ domain fl <> EmptyString.

End setupstorage.

(** ** Inputs of the examples of the provisioning run *)

Definition files0 : gmap string (setupstorage.ServerConfig unit) :=
  {[ "deploy/example.com" :=
       {| setupstorage.rest := tt; setupstorage.StoreConfig := [] |} ]}.

Definition env0 (respond : setupstorage.Request -> setupstorage.Response)
    (cloud : setup.Request -> option error)
  : setupstorage.Env (gmap string (setupstorage.ServerConfig unit)) unit :=
  {| setupstorage.session_error := None;
     setupstorage.respond := respond;
     setupstorage.cloud := cloud;
     setupstorage.Join := fun dir name => dir +:+ "/" +:+ name;
     setupstorage.ReadServerConfig := fun path f => f !! path;
     setupstorage.WriteServerConfig := fun path cfg f => Some (<[path := cfg]> f) |}.

Definition flags0 (clean : bool) (args : list string) : setupstorage.Flags :=
  {| setupstorage.where_ := "deploy";
     setupstorage.domain := "example.com";
     setupstorage.region := "us-east-1";
     setupstorage.roleName := "upspinstorage";
     setupstorage.clean := clean;
     setupstorage.args := args |}.

Definition machine0 : setupstorage.Machine (gmap string (setupstorage.ServerConfig unit)) :=
  {| setupstorage.console := console0;
     setupstorage.requests := [];
     setupstorage.stderr := [];
     setupstorage.files := files0 |}.

Definition role0 : iam.Role := {| iam.RoleName := Some "upspinstorage" |}.

Definition all_done (r : setupstorage.Request) : setupstorage.Response :=
  setupstorage.Done (Some role0).

Definition bucket_taken (r : setupstorage.Request) : setupstorage.Response :=
  match r with
  | setupstorage.CreateBucket _ _ =>
      setupstorage.Failed (requestFailure "BucketAlreadyExists" 409)
  | _ => setupstorage.Done (Some role0)
  end.

Definition nothing_there (r : setup.Request) : option error :=
  Some (requestFailure "NoSuchEntity" 404).

(** ** The tests of the adapter *)

Module s3test.

(** [S3.CreateBucket] and [S3.DeleteBucket] of the SDK, which the test
    harness uses through the client of the adapter. *)
Class BucketAPI (R : Type) : Type := {
  CreateBucket : sdk.S3 -> string -> R -> option error * R;
  DeleteBucket : sdk.S3 -> string -> R -> option error * R
}.

Inductive BucketCall : Type :=
| CallCreateBucket (c : sdk.S3) (Bucket : string)
| CallDeleteBucket (c : sdk.S3) (Bucket : string).

(** What is printed: the format, if any, and the operands. *)
Inductive Arg : Type :=
| ArgError (e : Error)
| ArgErr (e : error)
| ArgString (s : string).

Inductive Line : Type :=
| Printf (format : string) (operands : list Arg)
| Println (operands : list Arg).

(** The test process: the package variable [client] (nil until [Dial]
    succeeds), the world, the bucket requests, what was printed, and
    whether the running test has failed. *)
Record Process (R : Type) : Type := {
  client : option s3Impl;
  sdk_world : World R;
  bucket_calls : list BucketCall;
  printed : list Line;
  failed : bool
}.
Arguments client {R} p.
Arguments sdk_world {R} p.
Arguments bucket_calls {R} p.
Arguments printed {R} p.
Arguments failed {R} p.

(** The flags of the test binary. *)
Record Flags : Type := {
  testBucket : string;
  testRegion : string;
  useAWS : bool
}.

Definition skip_message : string :=
  setupstorage.nl +:+
  setupstorage.nl +:+
  "cloud/storage/amazons3: skipping test as it requires S3 access. To enable this" +:+
  setupstorage.nl +:+
  "test, ensure you are properly authorized to upload to an S3 bucket named by flag" +:+
  setupstorage.nl +:+
  "-test_bucket and then set this test's flag -use_aws." +:+
  setupstorage.nl +:+
  setupstorage.nl.

Section Tests.
Context {fmt : GoFmt} {R : Type} {api : sdk.API R}.
(** [testDataStr] and [fileName], which the package derives from the clock. *)
Variables (testDataStr fileName : string).

Definition testData : list byte := list_byte_of_string testDataStr.

(** A method of the Storage interface called on [client]; a nil interface
    value panics. *)
Definition on_client {A : Type} (m : M (State R) A) : M (Process R) A :=
  fun p =>
    match client p with
    | None => (Panicked NilPointerDereference, p)
    | Some s =>
        let (o, st) := m {| adapter := s; world := sdk_world p |} in
        (o, {| client := Some (adapter st); sdk_world := world st;
               bucket_calls := bucket_calls p; printed := printed p;
               failed := failed p |})
    end.

Definition print (l : Line) : M (Process R) unit :=
  fun p => (Returned tt,
            {| client := client p; sdk_world := sdk_world p;
               bucket_calls := bucket_calls p; printed := printed p ++ [l];
               failed := failed p |}).

(** [t.Errorf], and [t.Fatalf] and [t.Fatal], after which the test function
    does not go on: the line is printed and the test marked as failed. *)
Definition fail (l : Line) : M (Process R) unit :=
  fun p => (Returned tt,
            {| client := client p; sdk_world := sdk_world p;
               bucket_calls := bucket_calls p; printed := printed p ++ [l];
               failed := true |}).

Definition TestPutAndDownload : M (Process R) unit :=
  let* err := on_client (Put fileName testData) in
  match err with
  | Some err => fail (Printf "Can't put: %v" [ArgError err])
  | None =>
  let* r := on_client (Download fileName) in
  match r with
  | inr err => fail (Printf "Can't Download: %v" [ArgError err])
  | inl data =>
      if negb (String.eqb (string_of_list_byte data) testDataStr)
      then fail (Printf "Expected %q got %q"
                   [ArgString testDataStr; ArgString (string_of_list_byte data)])
      else ret tt
  end end.

Definition TestDelete : M (Process R) unit :=
  let* err := on_client (Put fileName testData) in
  match err with
  | Some err => fail (Println [ArgError err])
  | None =>
  let* err := on_client (Delete fileName) in
  match err with
  | Some err => fail (Printf "Expected no errors, got %v" [ArgError err])
  | None =>
  let* r := on_client (Download fileName) in
  match r with
  | inr _ => ret tt
  | inl _ => fail (Println [ArgString "Expected an error, but got none"])
  end end end.

(** [storage.Dial("S3", ...)] of package upspin.io: the options are
    collected by [WithKeyValue] in order and handed to the constructor
    registered under the name, which [init] makes [New]. *)
Definition WithKeyValue (k v : string) (o : gmap string string) : gmap string string :=
  <[k := v]> o.

Definition Dial_S3 (dialOpts : list (gmap string string -> gmap string string))
  : M (World R) (s3Impl + Error) :=
  New (foldl (fun o f => f o) ∅ dialOpts).

Context {buckets : BucketAPI R}.

Definition bucket_request (c : BucketCall) (f : R -> option error * R)
  : M (Process R) (option error) :=
  fun p =>
    let (err, r) := f (remote (sdk_world p)) in
    (Returned err,
     {| client := client p;
        sdk_world := {| remote := r; calls := calls (sdk_world p) |};
        bucket_calls := bucket_calls p ++ [c]; printed := printed p;
        failed := failed p |}).

(** The assertion of [client] to the adapter type, which panics on the nil
    interface. *)
Definition assert_s3Impl : M (Process R) s3Impl :=
  fun p =>
    match client p with
    | Some s => (Returned s, p)
    | None => (Panicked InterfaceConversion, p)
    end.

Definition createBucket (s : s3Impl) : M (Process R) (option error) :=
  let* svc := deref (service s) in
  bucket_request (CallCreateBucket svc (bucketName s))
    (CreateBucket svc (bucketName s)).

Definition deleteBucket (s : s3Impl) : M (Process R) (option error) :=
  let* svc := deref (service s) in
  bucket_request (CallDeleteBucket svc (bucketName s))
    (DeleteBucket svc (bucketName s)).

(** [TestMain]; [Run] is [m.Run] of package testing and the result the
    status the process exits with. *)
Definition TestMain (Run : M (Process R) Z) (fl : Flags) : M (Process R) Z :=
  if negb (useAWS fl)
  then print (Printf skip_message []);; ret 0
  else
    let* r := (fun p =>
                 let (o, w) := Dial_S3 [WithKeyValue "s3Region" (testRegion fl);
                                        WithKeyValue "s3BucketName" (testBucket fl);
                                        WithKeyValue "defaultACL" ACLPublicRead]
                                 (sdk_world p) in
                 (o, {| client := match o with
                                  | Returned (inl s) => Some s
                                  | _ => None
                                  end;
                        sdk_world := w; bucket_calls := bucket_calls p;
                        printed := printed p; failed := failed p |})) in
    match r with
    | inr err =>
        print (Printf "cloud/storage/amazons3: couldn't set up client: %v"
                 [ArgError err]);;
        ret 1
    | inl _ =>
        let* s := assert_s3Impl in
        let* err := createBucket s in
        match err with
        | Some err => print (Printf "cloud/storage/amazons3: createBucket failed: %v"
                               [ArgErr err])
        | None => ret tt
        end;;
        let* code := Run in
        let* s := assert_s3Impl in
        let* err := deleteBucket s in
        match err with
        | Some err => print (Printf "cloud/storage/amazons3: deleteBucket failed: %v"
                               [ArgErr err])
        | None => ret tt
        end;;
        ret code
    end.

End Tests.

End s3test.

(** ** Further inputs of the examples *)

(** The white space bytes of ASCII. *)
Definition is_ascii_space (a : ascii) : Prop :=
  In (nat_of_ascii a) [9; 10; 11; 12; 13; 32]%nat.

Definition process0 : s3test.Process fake.Remote :=
  {| s3test.client := Some adapter0;
     s3test.sdk_world := world0;
     s3test.bucket_calls := [];
     s3test.printed := [];
     s3test.failed := false |}.

(** The bucket is gone already and the role cannot be deleted. *)
Definition role_in_use (r : setup.Request) : option error :=
  match r with
  | setup.DeleteBucket _ _ => Some (requestFailure "NoSuchBucket" 404)
  | setup.DeleteRole _ => Some (requestFailure "DeleteConflict" 409)
  | _ => None
  end.

(** The connection drops at the third request. *)
Definition connection_drops (r : setup.Request) : option error :=
  match r with
  | setup.DeleteInstanceProfile _ =>
      Some (plainError "RequestError: send request failed")
  | _ => None
  end.

(** * Properties *)

Section AdapterFacts.
Context {fmt : GoFmt} {R : Type} {api : sdk.API R}.

Ltac run_method :=
  unfold Put, Download, Delete, LinkBase, Close, receiver, assign, deref,
    lift, invoke, bind, ret, panic, after; simpl.

Lemma Put_live (st : State R) svc ref contents :
  service (adapter st) = Some svc ->
  let s := adapter st in
  let input := {| sdk.ACL := defaultWriteACL s; sdk.Bucket := bucketName s;
                  sdk.Key := ref; sdk.Body := contents |} in
  Put ref contents st =
    let (err, r) := sdk.Upload svc input (remote (world st)) in
    (Returned
       match err with
       | Some err => Some (E "cloud/storage/amazons3.Put" IO (errorString
           ("unable to upload ref " +:+ Quote ref +:+ " to bucket "
            +:+ Quote (bucketName s) +:+ ": " +:+ error_text err)))
       | None => None
       end,
     after st (CallUpload svc input) r).
Proof.
  intros Hs. run_method. rewrite Hs. simpl.
  destruct (sdk.Upload _ _ _) as [[err|] r]; reflexivity.
Qed.

Lemma Delete_live (st : State R) svc ref :
  service (adapter st) = Some svc ->
  let s := adapter st in
  let input := {| sdk.del_Bucket := bucketName s; sdk.del_Key := ref |} in
  Delete ref st =
    let (err, r) := sdk.DeleteObject svc input (remote (world st)) in
    (Returned
       match err with
       | Some err => Some (E "cloud/storage/amazons3.Delete" IO (errorString
           ("unable to delete ref " +:+ Quote ref +:+ " from bucket "
            +:+ Quote (bucketName s) +:+ ": " +:+ error_text err)))
       | None => None
       end,
     after st (CallDeleteObject svc input) r).
Proof.
  intros Hs. run_method. rewrite Hs. simpl.
  destruct (sdk.DeleteObject _ _ _) as [[err|] r]; reflexivity.
Qed.

Lemma Download_live (st : State R) svc ref :
  service (adapter st) = Some svc ->
  let s := adapter st in
  let input := {| sdk.get_Bucket := bucketName s; sdk.get_Key := ref |} in
  Download ref st =
    let (res, r) := sdk.Download svc input (remote (world st)) in
    (Returned
       match res with
       | inl buf => inl buf
       | inr err => inr (download_error s ref err)
       end,
     after st (CallDownload svc input) r).
Proof.
  intros Hs. run_method. rewrite Hs. simpl.
  destruct (sdk.Download _ _ _) as [[buf|err] r]; [reflexivity|].
  unfold download_error.
  destruct (StatusCode err) as [[|p|p]|]; try reflexivity.
  destruct (Pos.eq_dec p 404%positive) as [->|Hp]; [reflexivity|].
  repeat (destruct p as [p|p|]; try reflexivity); congruence.
Qed.

Lemma download_error_kind s ref err :
  kind (download_error s ref err) = NotExist <-> StatusCode err = Some 404.
Proof.
  unfold download_error.
  destruct (StatusCode err) as [z|]; [|simpl; split; congruence].
  destruct (Z.eq_dec z 404) as [->|Hz]; [simpl; tauto|].
  assert (Hio : kind match z with
                     | 404 => E "cloud/storage/amazons3.Download" NotExist err
                     | _ => E "cloud/storage/amazons3.Download" IO (errorString
                         ("unable to download ref " +:+ Quote ref +:+ " from bucket "
                          +:+ Quote (bucketName s) +:+ ": " +:+ error_text err))
                     end = IO).
  { destruct z as [|p|p]; try reflexivity.
    repeat (destruct p as [p|p|]; try reflexivity); congruence. }
  rewrite Hio. split; congruence.
Qed.

Lemma LinkBase_live (st : State R) svc :
  service (adapter st) = Some svc ->
  LinkBase st =
    (Returned (sdk.Endpoint svc +:+ "/" +:+ bucketName (adapter st) +:+ "/", None), st).
Proof. intros Hs. run_method. rewrite Hs. reflexivity. Qed.

Lemma Close_eq (st : State R) :
  Close st = (Returned tt, {| adapter := closed (adapter st); world := world st |}).
Proof. reflexivity. Qed.

(** C2. Every failure of the underlying client is classified once and
    returned at once: the method makes the one call and no other, the state
    is the one that call left, and the result is fixed by that call's error.
    [Download] returns a NotExist error exactly when the error is a request
    failure with status 404; every other failure of [Put], [Download] and
    [Delete] is an IO error whose text holds the quoted ref, the quoted
    bucket name and the text of the underlying error. *)
Theorem failures_classified_once (st : State R) (svc : sdk.S3) (ref : string)
    (contents : list byte) (H : service (adapter st) = Some svc) :
  let s := adapter st in
  let w := remote (world st) in
  let up := {| sdk.ACL := defaultWriteACL s; sdk.Bucket := bucketName s;
               sdk.Key := ref; sdk.Body := contents |} in
  let dl := {| sdk.get_Bucket := bucketName s; sdk.get_Key := ref |} in
  let del := {| sdk.del_Bucket := bucketName s; sdk.del_Key := ref |} in
  (forall e r, sdk.Upload svc up w = (Some e, r) ->
     Put ref contents st =
       (Returned (Some (E "cloud/storage/amazons3.Put" IO (errorString
          ("unable to upload ref " +:+ Quote ref +:+ " to bucket "
           +:+ Quote (bucketName s) +:+ ": " +:+ error_text e)))),
        after st (CallUpload svc up) r)) /\
  (forall e r, sdk.Download svc dl w = (inr e, r) ->
     exists err,
       Download ref st = (Returned (inr err), after st (CallDownload svc dl) r) /\
       (kind err = NotExist <-> StatusCode e = Some 404) /\
       (StatusCode e = Some 404 ->
          err = E "cloud/storage/amazons3.Download" NotExist e) /\
       (StatusCode e <> Some 404 ->
          err = E "cloud/storage/amazons3.Download" IO (errorString
            ("unable to download ref " +:+ Quote ref +:+ " from bucket "
             +:+ Quote (bucketName s) +:+ ": " +:+ error_text e)))) /\
  (forall e r, sdk.DeleteObject svc del w = (Some e, r) ->
     Delete ref st =
       (Returned (Some (E "cloud/storage/amazons3.Delete" IO (errorString
          ("unable to delete ref " +:+ Quote ref +:+ " from bucket "
           +:+ Quote (bucketName s) +:+ ": " +:+ error_text e)))),
        after st (CallDeleteObject svc del) r)).
Proof.
  intros s w up dl del. split; [|split].
  - intros e r Hup. rewrite (Put_live st svc ref contents H).
    fold s up w. rewrite Hup. reflexivity.
  - intros e r Hdl. exists (download_error s ref e).
    rewrite (Download_live st svc ref H). fold s dl w. rewrite Hdl.
    split; [reflexivity|]. split; [apply download_error_kind|].
    unfold download_error. split.
    + intros ->. reflexivity.
    + intros Hne. destruct (StatusCode e) as [z|]; [|reflexivity].
      destruct z as [|p|p]; try reflexivity.
      destruct (Pos.eq_dec p 404%positive) as [->|Hp]; [congruence|].
      repeat (destruct p as [p|p|]; try reflexivity); congruence.
  - intros e r Hdel. rewrite (Delete_live st svc ref H).
    fold s del w. rewrite Hdel. reflexivity.
Qed.

(** C5. On an adapter whose client handle is set, as [New] returns it,
    [LinkBase] returns the endpoint of the client, a slash, the bucket name
    and a slash, with a nil error; the state is untouched, so no call was
    made, and the result depends on the two fields only. *)
Theorem LinkBase_pure (st : State R) (svc : sdk.S3)
    (H : service (adapter st) = Some svc) :
  LinkBase st =
    (Returned (sdk.Endpoint svc +:+ "/" +:+ bucketName (adapter st) +:+ "/", None),
     st).
Proof. exact (LinkBase_live st svc H). Qed.

(** C6. [Close] returns, sets the client handle to nil and the bucket name
    to the empty string, leaves the ACL and the world (no call is made), and
    a second [Close] changes nothing. *)
Theorem Close_idempotent (st : State R) :
  let st1 := snd (Close st) in
  fst (Close st) = Returned tt /\
  service (adapter st1) = None /\
  bucketName (adapter st1) = EmptyString /\
  defaultWriteACL (adapter st1) = defaultWriteACL (adapter st) /\
  world st1 = world st /\
  Close st1 = (Returned tt, st1).
Proof. repeat split. Qed.

Lemma exec_frame (o : Method) (st : State R) :
  adapter (snd (exec o st)) = adapter st.
Proof.
  destruct (service (adapter st)) as [svc|] eqn:Hs.
  - destruct o as [ref contents|ref|ref|]; unfold exec, bind.
    + rewrite (Put_live st svc ref contents Hs).
      destruct (sdk.Upload _ _ _) as [e r]. reflexivity.
    + rewrite (Download_live st svc ref Hs).
      destruct (sdk.Download _ _ _) as [e r]. reflexivity.
    + rewrite (Delete_live st svc ref Hs).
      destruct (sdk.DeleteObject _ _ _) as [e r]. reflexivity.
    + rewrite (LinkBase_live st svc Hs). reflexivity.
  - destruct o; unfold exec; run_method; rewrite Hs; reflexivity.
Qed.

Lemma run_frame (ops : list Method) (st : State R) :
  adapter (snd (run ops st)) = adapter st.
Proof.
  revert st. induction ops as [|o ops IH]; intros st; [reflexivity|].
  simpl. unfold bind at 1.
  pose proof (exec_frame o st) as Ho.
  destruct (exec o st) as [[r|p] st1]; simpl in Ho; [|exact Ho].
  unfold bind at 1. specialize (IH st1).
  destruct (run ops st1) as [[rs|p] st2]; simpl in *; congruence.
Qed.

(** C7. No call of [Put], [Download], [Delete] or [LinkBase], and no
    sequence of such calls, changes a field of the adapter, whatever the
    calls return. *)
Theorem adapter_unchanged (ops : list Method) (o : Method) (st : State R) :
  adapter (snd (exec o st)) = adapter st /\
  adapter (snd (run ops st)) = adapter st.
Proof. split; [apply exec_frame | apply run_frame]. Qed.

(** C10. After [Close] every method reads the nil handle unguarded: each
    of [LinkBase], [Put], [Download] and [Delete] panics with a nil pointer
    dereference, returns no error value, and makes no call. *)
Theorem use_after_Close_panics (st : State R) (ref : string) (contents : list byte) :
  let st1 := snd (Close st) in
  LinkBase st1 = (Panicked NilPointerDereference, st1) /\
  Put ref contents st1 = (Panicked NilPointerDereference, st1) /\
  Download ref st1 = (Panicked NilPointerDereference, st1) /\
  Delete ref st1 = (Panicked NilPointerDereference, st1).
Proof. repeat split. Qed.

End AdapterFacts.

Section Construction.
Context {fmt : GoFmt} {R : Type} {api : sdk.API R}.

Lemma not_Invalid_after_session (w : World R)
    (region bucket acl : string) (endpoint : option string) (force : bool)
    (o : Outcome (s3Impl + Error)) :
  o = fst ((let options :=
              {| session.Config := {| aws.Region := Some region;
                                      aws.Endpoint := endpoint;
                                      aws.S3ForcePathStyle := Some force |};
                 session.SharedConfigState_ := session.SharedConfigEnable |} in
            let* r := invoke (CallNewSession options)
                        (fun rs => (sdk.NewSessionWithOptions options rs, rs)) in
            match r with
            | inr err => ret (inr (E "cloud/storage/amazons3.New" IO (errorString
                ("unable to create Amazon session: " +:+ error_text err))))
            | inl sess => ret (inl {| service := Some (sdk.New sess);
                                      bucketName := bucket;
                                      defaultWriteACL := acl |})
            end) w) ->
  ~ fails_with Invalid o.
Proof.
  intros -> (e & He & Hk). revert He.
  unfold bind, invoke, ret. simpl.
  destruct (sdk.NewSessionWithOptions _ _) as [sess|err]; simpl;
    intros [= <-]; discriminate.
Qed.

(** When [New] fails with Invalid, and what it has done by then. *)
Lemma New_Invalid_exactly (opts : gmap string string) (w : World R) :
  (fails_with Invalid (fst (New opts w)) <-> trimmed_invalid opts) /\
  (fails_with Invalid (fst (New opts w)) -> snd (New opts w) = w).
Proof.
  unfold New, trimmed_invalid, required_absent, acl_outside.
  destruct (opts !! opt.regionName) as [region|] eqn:Hr;
    [|split; [split; [tauto | intros _; eexists; split; reflexivity]
             | reflexivity]].
  destruct (opts !! opt.bucketName) as [bucket|] eqn:Hb;
    [|split; [split; [tauto | intros _; eexists; split; reflexivity]
             | reflexivity]].
  destruct (opts !! opt.defaultACL) as [acl|] eqn:Ha;
    [|split; [split; [tauto | intros _; eexists; split; reflexivity]
             | reflexivity]].
  destruct (opts !! opt.pathstyle) as [p|] eqn:Hp;
    [|split; [split; [tauto | intros _; eexists; split; reflexivity]
             | reflexivity]].
  assert (Hvalid : forall force : bool,
    let body := (if negb (String.eqb acl ACLPrivate) && negb (String.eqb acl ACLPublicRead)
       then ret (inr (E "cloud/storage/amazons3.New" Invalid (errorString
              ("valid ACL values for S3 are " +:+ ACLPrivate +:+ " and "
               +:+ ACLPublicRead))))
       else
         let options :=
           {| session.Config := {| aws.Region := Some region;
                                   aws.Endpoint := opts !! opt.endpointURL;
                                   aws.S3ForcePathStyle := Some force |};
              session.SharedConfigState_ := session.SharedConfigEnable |} in
         let* r := invoke (CallNewSession options)
                     (fun rs => (sdk.NewSessionWithOptions options rs, rs)) in
         match r with
         | inr err => ret (inr (E "cloud/storage/amazons3.New" IO (errorString
             ("unable to create Amazon session: " +:+ error_text err))))
         | inl sess => ret (inl {| service := Some (sdk.New sess);
                                   bucketName := bucket;
                                   defaultWriteACL := acl |})
         end) w in
    (fails_with Invalid (fst body) <-> acl <> ACLPublicRead /\ acl <> ACLPrivate) /\
    (fails_with Invalid (fst body) -> snd body = w)).
  { intros force.
    destruct (String.eqb_spec acl ACLPrivate) as [Hpriv|Hpriv];
      destruct (String.eqb_spec acl ACLPublicRead) as [Hpub|Hpub]; simpl.
    1-3: split;
      [ split; [ intros Hf; exfalso;
                 exact (not_Invalid_after_session w region bucket acl
                          (opts !! opt.endpointURL) force _ eq_refl Hf)
               | tauto ]
      | intros Hf; exfalso;
        exact (not_Invalid_after_session w region bucket acl
                 (opts !! opt.endpointURL) force _ eq_refl Hf) ].
    split; [split; [tauto | intros _; eexists; split; reflexivity] | reflexivity]. }
  destruct (String.eqb_spec (TrimSpace p) "true") as [Ht|Ht].
  - destruct (Hvalid true) as [Hiff Hw]. split; [|exact Hw].
    rewrite Hiff. split.
    + intros [? ?]. right; right. exists acl. tauto.
    + intros [[?|[?|[?|?]]]|[(q & [= <-] & Hq & _)|(a & [= <-] & ? & ?)]];
        try discriminate; [congruence | tauto].
  - destruct (String.eqb_spec (TrimSpace p) "false") as [Hf|Hf].
    + destruct (Hvalid false) as [Hiff Hw]. split; [|exact Hw].
      rewrite Hiff. split.
      * intros [? ?]. right; right. exists acl. tauto.
      * intros [[?|[?|[?|?]]]|[(q & [= <-] & _ & Hq)|(a & [= <-] & ? & ?)]];
          try discriminate; [congruence | tauto].
    + split; [|reflexivity]. split.
      * intros _. right; left. exists p. tauto.
      * intros _. eexists; split; reflexivity.
Qed.

(** The adapter [New] returns holds a client handle. *)
Lemma New_live (opts : gmap string string) (w w' : World R) (s : s3Impl) :
  New opts w = (Returned (inl s), w') -> exists svc, service s = Some svc.
Proof.
  unfold New.
  destruct (opts !! opt.regionName) as [region|]; [|discriminate].
  destruct (opts !! opt.bucketName) as [bucket|]; [|discriminate].
  destruct (opts !! opt.defaultACL) as [acl|]; [|discriminate].
  destruct (opts !! opt.pathstyle) as [flag|]; [|discriminate].
  assert (Hbody : forall force : bool,
    (if negb (String.eqb acl ACLPrivate) && negb (String.eqb acl ACLPublicRead)
     then ret (inr (E "cloud/storage/amazons3.New" Invalid (errorString
            ("valid ACL values for S3 are " +:+ ACLPrivate +:+ " and "
             +:+ ACLPublicRead))))
     else
       let options :=
         {| session.Config := {| aws.Region := Some region;
                                 aws.Endpoint := opts !! opt.endpointURL;
                                 aws.S3ForcePathStyle := Some force |};
            session.SharedConfigState_ := session.SharedConfigEnable |} in
       let* r := invoke (CallNewSession options)
                   (fun rs => (sdk.NewSessionWithOptions options rs, rs)) in
       match r with
       | inr err => ret (inr (E "cloud/storage/amazons3.New" IO (errorString
           ("unable to create Amazon session: " +:+ error_text err))))
       | inl sess => ret (inl {| service := Some (sdk.New sess);
                                 bucketName := bucket;
                                 defaultWriteACL := acl |})
       end) w = (Returned (inl s), w') -> exists svc, service s = Some svc).
  { intros force.
    destruct (negb (String.eqb acl ACLPrivate) && negb (String.eqb acl ACLPublicRead));
      [discriminate|].
    unfold bind, invoke, ret. simpl.
    destruct (sdk.NewSessionWithOptions _ _) as [sess|err]; [|discriminate].
    intros [= <- _]. eexists; reflexivity. }
  destruct (String.eqb (TrimSpace flag) "true"); [apply Hbody|].
  destruct (String.eqb (TrimSpace flag) "false"); [apply Hbody|discriminate].
Qed.

(** C3, as the code has it.  [New] fails with an Invalid error exactly when
    a required option is absent, or the pathstyle flag with its leading and
    trailing white space trimmed is neither true nor false, or the ACL is
    neither public-read nor private; and when it does, the world is
    untouched: no session was requested and no call made. *)
Theorem New_invalid_iff (opts : gmap string string) (w : World R) :
  (fails_with Invalid (fst (New opts w)) <-> trimmed_invalid opts) /\
  (fails_with Invalid (fst (New opts w)) -> snd (New opts w) = w).
Proof. exact (New_Invalid_exactly opts w). Qed.

End Construction.

(** ** The double of the service *)

Section Blobs.
Context {fmt : GoFmt}.
#[local] Existing Instance fake.api.

Lemma next_fault_buckets (r : fake.Remote) :
  fake.buckets (snd (fake.next_fault r)) = fake.buckets r.
Proof. unfold fake.next_fault. destruct (fake.faults r); reflexivity. Qed.

Lemma blob_same_buckets (r r' : fake.Remote) bucket ref :
  fake.buckets r' = fake.buckets r -> fake.blob bucket ref r' = fake.blob bucket ref r.
Proof. unfold fake.blob. intros ->. reflexivity. Qed.

Lemma blob_insert_bucket (r : fake.Remote) bucket objs objs' b k :
  fake.buckets r !! bucket = Some objs ->
  (b = bucket -> objs' !! k = objs !! k) ->
  fake.blob b k (fake.set_buckets (<[bucket := objs']> (fake.buckets r)) r)
  = fake.blob b k r.
Proof.
  intros Hb Hk. unfold fake.blob, fake.set_buckets. simpl.
  destruct (decide (b = bucket)) as [->|Hne].
  - rewrite lookup_insert_eq, Hb. simpl. auto.
  - rewrite lookup_insert_ne by congruence. reflexivity.
Qed.

(** An upload that succeeds stores the body; any upload leaves the other
    refs alone. *)
Lemma Upload_blob c i (r r' : fake.Remote) e :
  fake.Upload c i r = (e, r') ->
  (e = None -> fake.blob (sdk.Bucket i) (sdk.Key i) r' = Some (sdk.Body i)) /\
  (forall b k, k <> sdk.Key i -> fake.blob b k r' = fake.blob b k r).
Proof.
  unfold fake.Upload.
  pose proof (next_fault_buckets r) as Hnf.
  destruct (fake.next_fault r) as [[f|] r1]; simpl in Hnf.
  - intros [= <- <-]. split; [discriminate|].
    intros b k _. apply blob_same_buckets, Hnf.
  - destruct (fake.buckets r1 !! sdk.Bucket i) as [objs|] eqn:Hb.
    + intros [= <- <-]. split.
      * intros _. unfold fake.blob, fake.set_buckets. simpl.
        rewrite lookup_insert_eq. simpl. apply lookup_insert_eq.
      * intros b k Hk. rewrite (blob_insert_bucket r1 _ objs) by
          (try exact Hb; intros _; apply lookup_insert_ne; congruence).
        apply blob_same_buckets, Hnf.
    + intros [= <- <-]. split; [discriminate|].
      intros b k _. apply blob_same_buckets, Hnf.
Qed.

(** A delete that succeeds removes the ref; any delete leaves the other
    refs alone and brings no blob back. *)
Lemma DeleteObject_blob c i (r r' : fake.Remote) e :
  fake.DeleteObject c i r = (e, r') ->
  (e = None -> fake.blob (sdk.del_Bucket i) (sdk.del_Key i) r' = None) /\
  (forall b k, k <> sdk.del_Key i -> fake.blob b k r' = fake.blob b k r) /\
  (forall b k, fake.blob b k r = None -> fake.blob b k r' = None).
Proof.
  unfold fake.DeleteObject.
  pose proof (next_fault_buckets r) as Hnf.
  destruct (fake.next_fault r) as [[f|] r1]; simpl in Hnf.
  - intros [= <- <-]. split; [discriminate|].
    split; intros b k; [intros _|intros <-]; apply blob_same_buckets, Hnf.
  - destruct (fake.buckets r1 !! sdk.del_Bucket i) as [objs|] eqn:Hb.
    + intros [= <- <-]. split; [|split].
      * intros _. unfold fake.blob, fake.set_buckets. simpl.
        rewrite lookup_insert_eq. simpl. apply lookup_delete_eq.
      * intros b k Hk. rewrite (blob_insert_bucket r1 _ objs) by
          (try exact Hb; intros _; apply lookup_delete_ne; congruence).
        apply blob_same_buckets, Hnf.
      * intros b k Hnone.
        rewrite <- (blob_same_buckets r r1 b k Hnf) in Hnone.
        unfold fake.blob, fake.set_buckets in *. simpl.
        destruct (decide (b = sdk.del_Bucket i)) as [->|Hne].
        -- rewrite lookup_insert_eq. rewrite Hb in Hnone. simpl in *.
           destruct (decide (k = sdk.del_Key i)) as [->|Hk].
           ++ apply lookup_delete_eq.
           ++ rewrite lookup_delete_ne by congruence. exact Hnone.
        -- rewrite lookup_insert_ne by congruence. exact Hnone.
    + intros [= <- <-]. split; [discriminate|].
      split; intros b k; [intros _|intros <-]; apply blob_same_buckets, Hnf.
Qed.

(** A download changes no blob; what it returns is the stored blob; and
    without a transport failure it returns the stored blob, or a 404
    request failure when there is none. *)
Lemma Download_blob c i (r r' : fake.Remote) res :
  fake.Download c i r = (res, r') ->
  fake.buckets r' = fake.buckets r /\
  (forall data, res = inl data ->
     fake.blob (sdk.get_Bucket i) (sdk.get_Key i) r = Some data) /\
  (no_fault r ->
     match fake.blob (sdk.get_Bucket i) (sdk.get_Key i) r with
     | Some data => res = inl data
     | None => exists e, res = inr e /\ StatusCode e = Some 404
     end).
Proof.
  unfold fake.Download, no_fault.
  pose proof (next_fault_buckets r) as Hnf.
  destruct (fake.next_fault r) as [[f|] r1]; simpl in Hnf; simpl.
  - intros [= <- <-]. split; [exact Hnf|]. split; [discriminate|discriminate].
  - unfold fake.blob. rewrite <- Hnf.
    destruct (fake.buckets r1 !! sdk.get_Bucket i) as [objs|]; simpl.
    + destruct (objs !! sdk.get_Key i) as [data|]; intros [= <- <-];
        (split; [reflexivity|]); split; try discriminate.
      * intros d [= <-]. reflexivity.
      * reflexivity.
      * intros _. eexists; split; reflexivity.
    + intros [= <- <-]. split; [reflexivity|]. split; [discriminate|].
      intros _. eexists; split; reflexivity.
Qed.

End Blobs.

(** ** Blobs through the adapter *)

Section Storage.
Context {fmt : GoFmt}.
#[local] Existing Instance fake.api.

Lemma exec_returns (o : Method) (st : State fake.Remote) svc :
  service (adapter st) = Some svc -> exists r, fst (exec o st) = Returned r.
Proof.
  intros Hs. destruct o as [ref contents|ref|ref|]; unfold exec, bind.
  - rewrite (Put_live st svc ref contents Hs).
    destruct (sdk.Upload _ _ _) as [e r]. eexists; reflexivity.
  - rewrite (Download_live st svc ref Hs).
    destruct (sdk.Download _ _ _) as [e r]. eexists; reflexivity.
  - rewrite (Delete_live st svc ref Hs).
    destruct (sdk.DeleteObject _ _ _) as [e r]. eexists; reflexivity.
  - rewrite (LinkBase_live st svc Hs). eexists; reflexivity.
Qed.

Lemma run_returns (ops : list Method) (st : State fake.Remote) svc :
  service (adapter st) = Some svc -> exists rs, fst (run ops st) = Returned rs.
Proof.
  revert st. induction ops as [|o ops IH]; intros st Hs; [eexists; reflexivity|].
  simpl. unfold bind at 1.
  destruct (exec_returns o st svc Hs) as [r Hr].
  pose proof (exec_frame o st) as Hfr.
  destruct (exec o st) as [o1 st1]. simpl in Hr, Hfr. subst o1.
  unfold bind at 1. destruct (IH st1) as [rs Hrs]; [congruence|].
  destruct (run ops st1) as [o2 st2]. simpl in Hrs. subst o2.
  eexists; reflexivity.
Qed.

(** What one call does to the blob under [ref]: a call that does not write
    [ref] keeps it, and a call that is no [Put] on [ref] brings none back. *)
Lemma exec_stored (o : Method) (st : State fake.Remote) ref :
  (writes ref o = false -> stored (snd (exec o st)) ref = stored st ref) /\
  (puts ref o = false -> stored st ref = None -> stored (snd (exec o st)) ref = None).
Proof.
  destruct (service (adapter st)) as [svc|] eqn:Hs.
  - destruct o as [r contents|r|r|]; unfold exec, bind, stored.
    + rewrite (Put_live st svc r contents Hs).
      destruct (sdk.Upload _ _ _) as [e r'] eqn:Hup. simpl.
      apply Upload_blob in Hup. destruct Hup as [_ Hother]. simpl in Hother.
      assert (Hne : String.eqb r ref = false ->
                    fake.blob (bucketName (adapter st)) ref r'
                    = fake.blob (bucketName (adapter st)) ref (remote (world st))).
      { intros Hneq. apply Hother. intros ->.
        rewrite String.eqb_refl in Hneq. discriminate. }
      split; intros Hw; [exact (Hne Hw)|]. intros Hnone. rewrite (Hne Hw). exact Hnone.
    + rewrite (Download_live st svc r Hs).
      destruct (sdk.Download _ _ _) as [e r'] eqn:Hdl. simpl.
      apply Download_blob in Hdl. destruct Hdl as [Hbk _].
      rewrite (blob_same_buckets _ _ _ _ Hbk). tauto.
    + rewrite (Delete_live st svc r Hs).
      destruct (sdk.DeleteObject _ _ _) as [e r'] eqn:Hdel. simpl.
      apply DeleteObject_blob in Hdel. destruct Hdel as (_ & Hother & Hnone).
      simpl in Hother. split.
      * intros Hneq. apply Hother. intros ->.
        rewrite String.eqb_refl in Hneq. discriminate.
      * intros _. apply Hnone.
    + rewrite (LinkBase_live st svc Hs). simpl. tauto.
  - assert (Hst : snd (exec o st) = st).
    { destruct o; unfold exec, Put, Download, Delete, LinkBase, receiver,
        deref, bind, ret, panic; simpl; rewrite Hs; reflexivity. }
    rewrite Hst. tauto.
Qed.

Lemma run_stored (ops : list Method) (st : State fake.Remote) ref :
  (forallb (fun o => negb (writes ref o)) ops = true ->
     stored (snd (run ops st)) ref = stored st ref) /\
  (forallb (fun o => negb (puts ref o)) ops = true ->
     stored st ref = None -> stored (snd (run ops st)) ref = None).
Proof.
  revert st. induction ops as [|o ops IH]; intros st; [simpl; tauto|].
  simpl. unfold bind at 1 3.
  destruct (exec_stored o st ref) as [Hkeep Habsent].
  destruct (exec o st) as [[r|p] st1]; simpl in Hkeep, Habsent.
  - unfold bind at 1 2. destruct (IH st1) as [IHkeep IHabsent].
    destruct (run ops st1) as [[rs|p] st2]; simpl in *;
      (split; [intros [Ho Hops]%andb_prop; apply negb_true_iff in Ho;
               rewrite (IHkeep Hops); exact (Hkeep Ho)
              |intros [Ho Hops]%andb_prop Hnone; apply negb_true_iff in Ho;
               exact (IHabsent Hops (Habsent Ho Hnone))]).
  - simpl. split.
    + intros [Ho _]%andb_prop. apply negb_true_iff in Ho. exact (Hkeep Ho).
    + intros [Ho _]%andb_prop Hnone. apply negb_true_iff in Ho.
      exact (Habsent Ho Hnone).
Qed.

(** A method that returned had a client handle. *)
Lemma Put_returned (st st1 : State fake.Remote) ref contents res :
  Put ref contents st = (Returned res, st1) ->
  exists svc, service (adapter st) = Some svc.
Proof.
  destruct (service (adapter st)) as [svc|] eqn:Hs; [eauto|].
  unfold Put, receiver, deref, bind, panic. simpl. rewrite Hs. discriminate.
Qed.

Lemma Delete_returned (st st1 : State fake.Remote) ref res :
  Delete ref st = (Returned res, st1) ->
  exists svc, service (adapter st) = Some svc.
Proof.
  destruct (service (adapter st)) as [svc|] eqn:Hs; [eauto|].
  unfold Delete, receiver, deref, bind, panic. simpl. rewrite Hs. discriminate.
Qed.

Lemma Put_stores (st st1 : State fake.Remote) ref contents :
  Put ref contents st = (Returned None, st1) ->
  adapter st1 = adapter st /\ stored st1 ref = Some contents.
Proof.
  intros HPut. destruct (Put_returned _ _ _ _ _ HPut) as [svc Hs].
  rewrite (Put_live st svc ref contents Hs) in HPut.
  destruct (sdk.Upload _ _ _) as [e r'] eqn:Hup.
  apply Upload_blob in Hup. destruct Hup as [Hnew _].
  destruct e as [e|]; [discriminate|]. injection HPut as <-.
  split; [reflexivity|]. unfold stored. simpl. exact (Hnew eq_refl).
Qed.

Lemma Delete_removes (st st1 : State fake.Remote) ref :
  Delete ref st = (Returned None, st1) ->
  adapter st1 = adapter st /\ stored st1 ref = None.
Proof.
  intros HDel. destruct (Delete_returned _ _ _ _ HDel) as [svc Hs].
  rewrite (Delete_live st svc ref Hs) in HDel.
  destruct (sdk.DeleteObject _ _ _) as [e r'] eqn:Hdel.
  apply DeleteObject_blob in Hdel. destruct Hdel as [Hgone _].
  destruct e as [e|]; [discriminate|]. injection HDel as <-.
  split; [reflexivity|]. unfold stored. simpl. exact (Hgone eq_refl).
Qed.

(** What [Download] returns, by the stored blob. *)
Lemma Download_stored (st : State fake.Remote) svc ref :
  service (adapter st) = Some svc ->
  (forall data, fst (Download ref st) = Returned (inl data) ->
     stored st ref = Some data) /\
  (no_fault (remote (world st)) ->
     match stored st ref with
     | Some data => fst (Download ref st) = Returned (inl data)
     | None => fails_with NotExist (fst (Download ref st))
     end).
Proof.
  intros Hs. rewrite (Download_live st svc ref Hs). unfold stored.
  destruct (sdk.Download _ _ _) as [res r'] eqn:Hdl.
  apply Download_blob in Hdl. destruct Hdl as (_ & Hdata & Hnf). simpl in *.
  split.
  - intros data Hres. apply Hdata. destruct res; congruence.
  - intros Hno. specialize (Hnf Hno).
    destruct (fake.blob _ _ _) as [data|].
    + subst res. reflexivity.
    + destruct Hnf as (e & -> & H404). eexists. split; [reflexivity|].
      apply download_error_kind. exact H404.
Qed.

(** C1. Round trip and last write wins.  After a [Put] of [B] under [ref]
    that succeeded, in whatever state (after earlier writes of [ref] too),
    and after any calls that are neither a [Put] nor a [Delete] on [ref],
    the calls all return, a [Download] of [ref] that meets no transport
    failure returns exactly [B], and no [Download] of [ref] returns other
    data than [B].  [B] may be empty. *)
Theorem last_write_wins (st st1 : State fake.Remote) (ref : string)
    (B : list byte) (ops : list Method)
    (HPut : Put ref B st = (Returned None, st1))
    (Hops : forallb (fun o => negb (writes ref o)) ops = true) :
  let st2 := snd (run ops st1) in
  (exists rs, fst (run ops st1) = Returned rs) /\
  (no_fault (remote (world st2)) -> fst (Download ref st2) = Returned (inl B)) /\
  (forall data, fst (Download ref st2) = Returned (inl data) -> data = B).
Proof.
  intros st2.
  destruct (Put_returned _ _ _ _ _ HPut) as [svc Hs].
  destruct (Put_stores _ _ _ _ HPut) as [Hadapter Hstored].
  assert (Hs1 : service (adapter st1) = Some svc) by congruence.
  assert (Hs2 : service (adapter st2) = Some svc).
  { unfold st2. rewrite run_frame. exact Hs1. }
  assert (Hst2 : stored st2 ref = Some B).
  { unfold st2. rewrite (proj1 (run_stored ops st1 ref) Hops). exact Hstored. }
  destruct (Download_stored st2 svc ref Hs2) as [Hdata Hnf].
  split; [exact (run_returns ops st1 svc Hs1)|]. split.
  - intros Hno. specialize (Hnf Hno). rewrite Hst2 in Hnf. exact Hnf.
  - intros data Hres. specialize (Hdata data Hres). congruence.
Qed.

(** C4. [Delete] of a ref that is not there succeeds when the bucket exists
    and the request meets no transport failure; after a [Delete] that
    succeeded, and calls that are no [Put] on the ref, a [Download] that
    meets no transport failure fails with NotExist; and for every client,
    an error that [Delete] returns has kind IO. *)
Theorem Delete_asymmetry :
  (forall (st : State fake.Remote) svc objs ref,
     service (adapter st) = Some svc ->
     fake.buckets (remote (world st)) !! bucketName (adapter st) = Some objs ->
     objs !! ref = None ->
     no_fault (remote (world st)) ->
     fst (Delete ref st) = Returned None /\
     fake.buckets (remote (world (snd (Delete ref st))))
     = fake.buckets (remote (world st))) /\
  (forall (st st1 : State fake.Remote) ref (ops : list Method),
     Delete ref st = (Returned None, st1) ->
     forallb (fun o => negb (puts ref o)) ops = true ->
     no_fault (remote (world (snd (run ops st1)))) ->
     fails_with NotExist (fst (Download ref (snd (run ops st1))))) /\
  (forall (R : Type) (api : sdk.API R) (st : State R) ref e,
     fst (Delete ref st) = Returned (Some e) -> kind e = IO).
Proof.
  split; [|split].
  - intros st svc objs ref Hs Hb Href Hno.
    rewrite (Delete_live st svc ref Hs). simpl.
    unfold fake.DeleteObject. unfold no_fault in Hno.
    pose proof (next_fault_buckets (remote (world st))) as Hnf.
    destruct (fake.next_fault (remote (world st))) as [f r1].
    simpl in Hno, Hnf. subst f. simpl. rewrite Hnf, Hb. simpl.
    split; [reflexivity|].
    rewrite (delete_id objs ref Href). apply insert_id. exact Hb.
  - intros st st1 ref ops HDel Hops Hno.
    destruct (Delete_returned _ _ _ _ HDel) as [svc Hs].
    destruct (Delete_removes _ _ _ HDel) as [Hadapter Hgone].
    set (st2 := snd (run ops st1)) in *.
    assert (Hs2 : service (adapter st2) = Some svc).
    { unfold st2. rewrite run_frame. congruence. }
    assert (Hst2 : stored st2 ref = None).
    { unfold st2. exact (proj2 (run_stored ops st1 ref) Hops Hgone). }
    destruct (Download_stored st2 svc ref Hs2) as [_ Hnf].
    specialize (Hnf Hno). rewrite Hst2 in Hnf. exact Hnf.
  - intros R api st ref e.
    destruct (service (adapter st)) as [svc|] eqn:Hs.
    + rewrite (Delete_live st svc ref Hs).
      destruct (sdk.DeleteObject _ _ _) as [[err|] r]; simpl;
        intros [= <-]; reflexivity.
    + unfold Delete, receiver, deref, bind, panic. simpl. rewrite Hs.
      discriminate.
Qed.

End Storage.

(** ** The provisioning command *)

Section Provisioning.
Context {fmt : GoFmt} {R : Type} {api : sdk.API R}.
Context {F Rest : Type} (env : setupstorage.Env F Rest).

Ltac by_cases_of_main :=
  unfold setupstorage.main, setupstorage.createRoleAccount,
    setupstorage.createInstanceProfile, setupstorage.createBucket,
    setupstorage.attachRolePolicy, setupstorage.readConfig,
    setupstorage.writeConfig, setupstorage.Fprintf_stderr,
    setupstorage.on_console, setupstorage.send, deref, panic, bind, ret;
  repeat (match goal with
          | |- context [match ?x with _ => _ end] =>
              lazymatch x with
              | context [match _ with _ => _ end] => fail
              | _ => destruct x eqn:?
              end
          end; simpl).

(** A provisioning run ends in [ExitNow] only after it has written the
    configuration, and what it writes is the configuration it read with the
    four store entries. *)
Lemma main_writes_four_entries (fl : setupstorage.Flags) (m : setupstorage.Machine F) :
  setupstorage.clean fl = false ->
  fst (setupstorage.main env fl m) = Returned setupstorage.ExitNow ->
  exists cfg,
    let path := setupstorage.Join env (setupstorage.where_ fl)
                  (setupstorage.domain fl) in
    setupstorage.ReadServerConfig env path (setupstorage.files m) = Some cfg /\
    setupstorage.WriteServerConfig env path
      {| setupstorage.rest := setupstorage.rest cfg;
         setupstorage.StoreConfig :=
           [ "backend=S3"; "defaultACL=public-read";
             "s3BucketName=" +:+ hd EmptyString (setupstorage.args fl);
             "s3Region=" +:+ setupstorage.region fl ] |}
      (setupstorage.files m)
    = Some (setupstorage.files (snd (setupstorage.main env fl m))).
Proof.
  intros Hclean. revert Hclean.
  by_cases_of_main; intros Hclean Hexit; try discriminate.
  eexists. split; [reflexivity | assumption].
Qed.

Lemma no_pathstyle_entry (bucket region v : string) :
  ("pathstyle=" +:+ v)
  ∉ [ "backend=S3"; "defaultACL=public-read";
      "s3BucketName=" +:+ bucket; "s3Region=" +:+ region ].
Proof.
  intros Hin.
  repeat (apply elem_of_cons in Hin as [Heq | Hin]; [simpl in Heq; discriminate|]).
  apply elem_of_nil in Hin. contradiction.
Qed.

Lemma New_needs_pathstyle (opts : gmap string string) (w : World R) :
  opts !! opt.pathstyle = None ->
  fails_with Invalid (fst (New opts w)) /\ snd (New opts w) = w.
Proof.
  intros Hp. destruct (New_Invalid_exactly opts w) as [Hiff Hw].
  assert (Hf : fails_with Invalid (fst (New opts w))).
  { apply Hiff. left. unfold required_absent. tauto. }
  split; [exact Hf | exact (Hw Hf)].
Qed.

(** C9. A run of the provisioning command that goes through to the end
    writes, into the server configuration it read, a store configuration
    that is exactly the four entries backend=S3, defaultACL=public-read,
    s3BucketName=<bucket> and s3Region=<region>; none of them is a
    pathstyle entry; [New] fails with Invalid, before any session or call,
    on every option map without the pathstyle key; and so it does on every
    option map whose options each are one of the written entries. *)
Theorem provisioned_options_rejected (fl : setupstorage.Flags)
    (m : setupstorage.Machine F) (opts : gmap string string) (w : World R) :
  let written :=
    [ "backend=S3"; "defaultACL=public-read";
      "s3BucketName=" +:+ hd EmptyString (setupstorage.args fl);
      "s3Region=" +:+ setupstorage.region fl ] in
  setupstorage.clean fl = false ->
  fst (setupstorage.main env fl m) = Returned setupstorage.ExitNow ->
  (forall k v, opts !! k = Some v -> (k +:+ "=" +:+ v) ∈ written) ->
  (exists cfg,
     let path := setupstorage.Join env (setupstorage.where_ fl)
                   (setupstorage.domain fl) in
     setupstorage.ReadServerConfig env path (setupstorage.files m) = Some cfg /\
     setupstorage.WriteServerConfig env path
       {| setupstorage.rest := setupstorage.rest cfg;
          setupstorage.StoreConfig := written |}
       (setupstorage.files m)
     = Some (setupstorage.files (snd (setupstorage.main env fl m)))) /\
  (forall v, ("pathstyle=" +:+ v) ∉ written) /\
  (forall opts' : gmap string string, opts' !! opt.pathstyle = None ->
     fails_with Invalid (fst (New opts' w)) /\ snd (New opts' w) = w) /\
  fails_with Invalid (fst (New opts w)) /\
  snd (New opts w) = w.
Proof.
  intros written Hclean Hexit Hopts.
  split; [exact (main_writes_four_entries fl m Hclean Hexit)|].
  split; [intros v; apply no_pathstyle_entry|].
  split; [intros opts'; apply New_needs_pathstyle|].
  apply New_needs_pathstyle.
  destruct (opts !! opt.pathstyle) as [v|] eqn:Hp; [|reflexivity].
  exfalso. exact (no_pathstyle_entry _ _ v (Hopts _ _ Hp)).
Qed.

End Provisioning.

Section CleanFacts.
Variable cloud : setup.Request -> option error.

Lemma clean_step (r : setup.Request) (what : string)
    (k : unit -> M setup.Console unit) (c : setup.Console) :
  (forall e, cloud r = Some e -> is_Some (StatusCode e)) ->
  bind (setup.send cloud r) (fun err => bind (setup.report err what) k) c
  = k tt {| setup.output := setup.output c ++ reported cloud r what;
            setup.sent := setup.sent c ++ [r] |}.
Proof.
  intros Hrf.
  unfold setup.send, setup.report, setup.assertStatusCode, reported, ret, bind.
  simpl. destruct (cloud r) as [e|] eqn:He.
  - destruct (Hrf e eq_refl) as [code Hcode]. rewrite Hcode.
    destruct (code =? 404); simpl; [rewrite app_nil_r|]; reflexivity.
  - rewrite app_nil_r. reflexivity.
Qed.

Lemma clean_last (r : setup.Request) (what : string) (c : setup.Console) :
  (forall e, cloud r = Some e -> is_Some (StatusCode e)) ->
  bind (setup.send cloud r) (fun err => setup.report err what) c
  = (Returned tt,
     {| setup.output := setup.output c ++ reported cloud r what;
        setup.sent := setup.sent c ++ [r] |}).
Proof.
  intros Hrf.
  unfold setup.send, setup.report, setup.assertStatusCode, reported, ret, bind.
  simpl. destruct (cloud r) as [e|] eqn:He.
  - destruct (Hrf e eq_refl) as [code Hcode]. rewrite Hcode.
    destruct (code =? 404); simpl; [rewrite app_nil_r|]; reflexivity.
  - rewrite app_nil_r. reflexivity.
Qed.

(** When every failure is a request failure, [clean] sends the five
    requests and prints, for each, a line exactly when the status of its
    failure is not 404. *)
Lemma clean_reports_request_failures (roleName bucketName region : string)
    (c : setup.Console) :
  (forall r e, cloud r = Some e -> is_Some (StatusCode e)) ->
  setup.clean cloud roleName bucketName region c
  = (Returned tt,
     {| setup.output :=
          (((((setup.output c ++ ["Cleaning up..."])
             ++ reported cloud (setup.DeleteBucket region bucketName)
                  ("unable to delete bucket " +:+ bucketName))
             ++ reported cloud (setup.RemoveRoleFromInstanceProfile roleName roleName)
                  ("unable to remove role from instance profile " +:+ roleName))
             ++ reported cloud (setup.DeleteInstanceProfile roleName)
                  ("unable to delete instance profile " +:+ roleName))
             ++ reported cloud (setup.DeleteRolePolicy "upspin-access-policy" roleName)
                  ("unable to delete role " +:+ roleName))
          ++ reported cloud (setup.DeleteRole roleName)
               ("unable to delete role " +:+ roleName);
        setup.sent :=
          setup.sent c ++
          [setup.DeleteBucket region bucketName;
           setup.RemoveRoleFromInstanceProfile roleName roleName;
           setup.DeleteInstanceProfile roleName;
           setup.DeleteRolePolicy "upspin-access-policy" roleName;
           setup.DeleteRole roleName] |}).
Proof.
  intros Hrf. unfold setup.clean.
  unfold bind at 1. unfold setup.log_Print at 1. simpl.
  do 4 (rewrite clean_step by (intros e He; exact (Hrf _ e He)); simpl).
  rewrite clean_last by (intros e He; exact (Hrf _ e He)). simpl.
  rewrite <- !app_assoc. reflexivity.
Qed.

End CleanFacts.

(** A failure of the first request that is no request failure stops
    [clean] with a panic: nothing is printed for it and the four later
    requests are never sent. *)
Lemma clean_panics_on_plain_failure (cloud : setup.Request -> option error)
    (roleName bucketName region : string) (c : setup.Console) (e : error) :
  cloud (setup.DeleteBucket region bucketName) = Some e ->
  StatusCode e = None ->
  setup.clean cloud roleName bucketName region c
  = (Panicked InterfaceConversion,
     {| setup.output := setup.output c ++ ["Cleaning up..."];
        setup.sent := setup.sent c ++ [setup.DeleteBucket region bucketName] |}).
Proof.
  intros He Hcode.
  unfold setup.clean, setup.send, setup.report, setup.assertStatusCode,
    setup.log_Print, panic, bind.
  simpl. rewrite He, Hcode. reflexivity.
Qed.

(** C8, at the failing input.  The bucket deletion fails with an error of
    the transport, which carries no status code: [clean] panics in the
    unchecked type assertion, the operator is told nothing of the failure
    beyond the banner, and the clean-up does not continue. *)
Theorem clean_panics_when_unreachable :
  setup.clean unreachable "upspinstorage" "bucket" "us-east-1" console0
  = (Panicked InterfaceConversion,
     {| setup.output := ["Cleaning up..."];
        setup.sent := [setup.DeleteBucket "us-east-1" "bucket"] |}).
Proof. reflexivity. Qed.

(** ** The examples *)

#[local] Existing Instance fake.api.
#[local] Existing Instance fake.fmt.

(** C3 as the specification words it fails: with the flag written with a
    leading space, which is neither literal, [New] returns an adapter. *)
Lemma New_accepts_padded_flag :
  ~ (forall (opts : gmap string string) (w : World fake.Remote),
       fails_with Invalid (fst (New opts w)) <-> spec_invalid opts).
Proof.
  intros Hspec. destruct (Hspec (options " true") world0) as [_ Hfail].
  destruct Hfail as (e & He & _).
  - right; left. exists " true". split; [reflexivity|]. split; discriminate.
  - vm_compute in He. discriminate.
Qed.

(** A flag that is neither true nor false: Invalid, and nothing was called. *)
Lemma New_invalid_iff_witness :
  fails_with Invalid (fst (New (options "yes") world0)) /\
  snd (New (options "yes") world0) = world0.
Proof.
  destruct (New_invalid_iff (options "yes") world0) as [Hiff Hw].
  assert (Hf : fails_with Invalid (fst (New (options "yes") world0))).
  { apply Hiff. right; left. exists "yes".
    split; [reflexivity|]. split; vm_compute; discriminate. }
  split; [exact Hf | exact (Hw Hf)].
Defined.

(** Two writes of one ref, other calls, then a read. *)
Lemma last_write_wins_witness :
  let st := snd (Put "k1" [] state0) in
  let st1 := snd (Put "k1" bytes_hello st) in
  let ops := [OpDownload "k1"; OpPut "k2" []; OpDelete "k3"; OpLinkBase] in
  Put "k1" bytes_hello st = (Returned None, st1) /\
  forallb (fun o => negb (writes "k1" o)) ops = true /\
  fst (Download "k1" (snd (run ops st1))) = Returned (inl bytes_hello).
Proof.
  intros st st1 ops.
  assert (HPut : Put "k1" bytes_hello st = (Returned None, st1))
    by (vm_compute; reflexivity).
  assert (Hops : forallb (fun o => negb (writes "k1" o)) ops = true)
    by reflexivity.
  split; [exact HPut|]. split; [exact Hops|].
  apply (last_write_wins st st1 "k1" bytes_hello ops HPut Hops).
  vm_compute. reflexivity.
Defined.

(** A 404 on [Download], a transport error on [Put], a 403 on [Delete]. *)
Lemma failures_classified_once_witness :
  service (adapter (failing (requestFailure "NoSuchKey" 404))) = Some client0 /\
  fst (Download "k1" (failing (requestFailure "NoSuchKey" 404)))
  = Returned (inr (E "cloud/storage/amazons3.Download" NotExist
                     (requestFailure "NoSuchKey" 404))) /\
  fst (Put "k1" bytes_hello (failing (plainError "timeout")))
  = Returned (Some (E "cloud/storage/amazons3.Put" IO (errorString
      ("unable to upload ref " +:+ dq +:+ "k1" +:+ dq +:+ " to bucket "
       +:+ dq +:+ "test" +:+ dq +:+ ": timeout")))) /\
  calls (world (snd (Delete "k1" (failing (requestFailure "AccessDenied" 403)))))
  = [CallDeleteObject client0 {| sdk.del_Bucket := "test"; sdk.del_Key := "k1" |}].
Proof.
  split; [reflexivity|]. split; [|split].
  - destruct (failures_classified_once (failing (requestFailure "NoSuchKey" 404))
                client0 "k1" [] eq_refl) as (_ & HD & _).
    destruct (HD (requestFailure "NoSuchKey" 404)
                 (remote (world state0)) eq_refl) as (err & -> & _ & H404 & _).
    rewrite (H404 eq_refl). reflexivity.
  - destruct (failures_classified_once (failing (plainError "timeout"))
                client0 "k1" bytes_hello eq_refl) as (HP & _).
    rewrite (HP (plainError "timeout") (remote (world state0)) eq_refl).
    reflexivity.
  - destruct (failures_classified_once (failing (requestFailure "AccessDenied" 403))
                client0 "k1" [] eq_refl) as (_ & _ & HDel).
    rewrite (HDel (requestFailure "AccessDenied" 403)
                  (remote (world state0)) eq_refl).
    reflexivity.
Defined.

(** [LinkBase] on the adapter of the specification's scenario. *)
Lemma LinkBase_pure_witness :
  fst (New (options "false") world0) = Returned (inl adapter0) /\
  service (adapter state0) = Some client0 /\
  LinkBase state0
  = (Returned ("https://s3.us-east-1.amazonaws.com/test/", None), state0).
Proof.
  split; [vm_compute; reflexivity|]. split; [reflexivity|].
  exact (LinkBase_pure state0 client0 eq_refl).
Defined.

(** Deleting what was never written, and reading what was deleted. *)
Lemma Delete_asymmetry_witness :
  fst (Delete "never-written" state0) = Returned None /\
  fails_with NotExist
    (fst (Download "k1" (snd (run [OpPut "k2" bytes_hello; OpDelete "k1"]
                                (snd (Delete "k1" (snd (Put "k1" bytes_hello state0)))))))) /\
  (forall e, fst (Delete "k1" (failing (requestFailure "NoSuchBucket" 404)))
             = Returned (Some e) -> kind e = IO).
Proof.
  destruct (@Delete_asymmetry fake.fmt) as (Habsent & Hgone & Hio).
  split; [|split].
  - apply (Habsent state0 client0 ∅ "never-written"); reflexivity.
  - apply (Hgone (snd (Put "k1" bytes_hello state0))
                 (snd (Delete "k1" (snd (Put "k1" bytes_hello state0)))) "k1").
    + vm_compute. reflexivity.
    + reflexivity.
    + vm_compute. reflexivity.
  - intros e. apply Hio.
Defined.

(** The run that goes through for a bucket in us-east-1, and the options
    of its entries without the backend. *)
Lemma provisioned_options_rejected_witness :
  let opts : gmap string string :=
    <["s3Region" := "us-east-1"]>
      (<["s3BucketName" := "bucket"]> (<["defaultACL" := "public-read"]> ∅)) in
  let run := setupstorage.main (env0 all_done nothing_there)
               (flags0 false ["bucket"]) machine0 in
  setupstorage.clean (flags0 false ["bucket"]) = false /\
  fst run = Returned setupstorage.ExitNow /\
  (forall k v, opts !! k = Some v ->
     (k +:+ "=" +:+ v)
     ∈ ["backend=S3"; "defaultACL=public-read"; "s3BucketName=bucket";
        "s3Region=us-east-1"]) /\
  setupstorage.StoreConfig <$> setupstorage.files (snd run) !! "deploy/example.com"
  = Some ["backend=S3"; "defaultACL=public-read"; "s3BucketName=bucket";
          "s3Region=us-east-1"] /\
  fails_with Invalid (fst (New opts world0)) /\
  snd (New opts world0) = world0.
Proof.
  intros opts run.
  assert (Hexit : fst run = Returned setupstorage.ExitNow) by reflexivity.
  assert (Hopts : forall k v, opts !! k = Some v ->
            (k +:+ "=" +:+ v)
            ∈ ["backend=S3"; "defaultACL=public-read"; "s3BucketName=bucket";
               "s3Region=us-east-1"]).
  { intros k v Hkv. unfold opts in Hkv.
    rewrite lookup_insert in Hkv. case_decide.
    { subst k. injection Hkv as <-. apply list_elem_of_In. simpl. tauto. }
    rewrite lookup_insert in Hkv. case_decide.
    { subst k. injection Hkv as <-. apply list_elem_of_In. simpl. tauto. }
    rewrite lookup_insert in Hkv. case_decide.
    { subst k. injection Hkv as <-. apply list_elem_of_In. simpl. tauto. }
    rewrite lookup_empty in Hkv. discriminate. }
  destruct (provisioned_options_rejected (env0 all_done nothing_there)
              (flags0 false ["bucket"]) machine0 opts world0 eq_refl Hexit Hopts)
    as ((cfg & Hread & Hwrite) & _ & _ & Hfail & Hworld).
  split; [reflexivity|]. split; [exact Hexit|]. split; [exact Hopts|].
  split; [|split; [exact Hfail | exact Hworld]].
  vm_compute. reflexivity.
Defined.

(** * Further properties of the adapter *)

Section AdapterMore.
Context {fmt : GoFmt} {R : Type} {api : sdk.API R}.

(** [New] reads five keys of the options and no other: option maps that
    agree on them give the same result, so an unknown or misspelt key is
    ignored without an error. *)
Theorem New_reads_five_keys (opts opts' : gmap string string) (w : World R)
    (H : forall k, k ∈ keys_read -> opts !! k = opts' !! k) :
  New opts w = New opts' w.
Proof.
  unfold New.
  rewrite (H opt.regionName), (H opt.endpointURL), (H opt.bucketName),
    (H opt.defaultACL), (H opt.pathstyle); [reflexivity|..];
    unfold keys_read; set_solver.
Qed.

Lemma New_valid_eq (opts : gmap string string) (w : World R)
    (region bucket acl flag : string) :
  opts !! opt.regionName = Some region ->
  opts !! opt.bucketName = Some bucket ->
  opts !! opt.defaultACL = Some acl ->
  opts !! opt.pathstyle = Some flag ->
  TrimSpace flag = "true" \/ TrimSpace flag = "false" ->
  acl = ACLPrivate \/ acl = ACLPublicRead ->
  let options := session_options region (opts !! opt.endpointURL) flag in
  New opts w =
    (Returned
       match sdk.NewSessionWithOptions options (remote w) with
       | inl sess => inl {| service := Some (sdk.New sess);
                            bucketName := bucket;
                            defaultWriteACL := acl |}
       | inr err => inr (E "cloud/storage/amazons3.New" IO (errorString
                      ("unable to create Amazon session: " +:+ error_text err)))
       end,
     {| remote := remote w; calls := calls w ++ [CallNewSession options] |}).
Proof.
  intros Hr Hb Ha Hp Hflag Hacl options. unfold New.
  rewrite Hr, Hb, Ha, Hp.
  assert (Hok : negb (String.eqb acl ACLPrivate) && negb (String.eqb acl ACLPublicRead)
                = false).
  { destruct Hacl as [-> | ->]; reflexivity. }
  rewrite Hok. unfold options, session_options.
  destruct Hflag as [Ht | Hf].
  - rewrite Ht. simpl. unfold bind, invoke, ret. simpl.
    destruct (sdk.NewSessionWithOptions _ _); reflexivity.
  - rewrite Hf. simpl. unfold bind, invoke, ret. simpl.
    destruct (sdk.NewSessionWithOptions _ _); reflexivity.
Qed.

(** On valid options [New] asks for one session, with the region, the
    endpoint if one is given, path-style addressing as the trimmed flag
    says and the shared configuration enabled; it leaves the remote side
    alone; when the session cannot be created it returns an IO error with
    the text of the cause, and otherwise an adapter with the bucket and the
    ACL of the options. *)
Theorem New_on_valid_options (opts : gmap string string) (w : World R)
    (region bucket acl flag : string)
    (Hr : opts !! opt.regionName = Some region)
    (Hb : opts !! opt.bucketName = Some bucket)
    (Ha : opts !! opt.defaultACL = Some acl)
    (Hp : opts !! opt.pathstyle = Some flag)
    (Hflag : TrimSpace flag = "true" \/ TrimSpace flag = "false")
    (Hacl : acl = ACLPrivate \/ acl = ACLPublicRead) :
  let options := session_options region (opts !! opt.endpointURL) flag in
  New opts w =
    (Returned
       match sdk.NewSessionWithOptions options (remote w) with
       | inl sess => inl {| service := Some (sdk.New sess);
                            bucketName := bucket;
                            defaultWriteACL := acl |}
       | inr err => inr (E "cloud/storage/amazons3.New" IO (errorString
                      ("unable to create Amazon session: " +:+ error_text err)))
       end,
     {| remote := remote w; calls := calls w ++ [CallNewSession options] |}).
Proof. exact (New_valid_eq opts w region bucket acl flag Hr Hb Ha Hp Hflag Hacl). Qed.

Lemma New_adapter (opts : gmap string string) (w w' : World R) (s : s3Impl) :
  New opts w = (Returned (inl s), w') ->
  exists region flag sess,
    opts !! opt.regionName = Some region /\
    opts !! opt.bucketName = Some (bucketName s) /\
    opts !! opt.defaultACL = Some (defaultWriteACL s) /\
    opts !! opt.pathstyle = Some flag /\
    (TrimSpace flag = "true" \/ TrimSpace flag = "false") /\
    (defaultWriteACL s = ACLPrivate \/ defaultWriteACL s = ACLPublicRead) /\
    sdk.NewSessionWithOptions
      (session_options region (opts !! opt.endpointURL) flag) (remote w) = inl sess /\
    service s = Some (sdk.New sess) /\
    w' = {| remote := remote w;
            calls := calls w ++ [CallNewSession
              (session_options region (opts !! opt.endpointURL) flag)] |}.
Proof.
  intros HNew.
  destruct (New_Invalid_exactly opts w) as [Hiff _].
  assert (Hvalid : ~ trimmed_invalid opts).
  { intros Hinv. apply Hiff in Hinv. destruct Hinv as (e & He & _).
    rewrite HNew in He. discriminate. }
  unfold trimmed_invalid, required_absent, acl_outside in Hvalid.
  destruct (opts !! opt.regionName) as [region|] eqn:Hr; [|tauto].
  destruct (opts !! opt.bucketName) as [bucket|] eqn:Hb; [|tauto].
  destruct (opts !! opt.defaultACL) as [acl|] eqn:Ha; [|tauto].
  destruct (opts !! opt.pathstyle) as [flag|] eqn:Hp; [|tauto].
  assert (Hflag : TrimSpace flag = "true" \/ TrimSpace flag = "false").
  { destruct (String.eqb_spec (TrimSpace flag) "true") as [?|Ht]; [tauto|].
    destruct (String.eqb_spec (TrimSpace flag) "false") as [?|Hf]; [tauto|].
    exfalso. apply Hvalid. right; left. exists flag. tauto. }
  assert (Hacl : acl = ACLPrivate \/ acl = ACLPublicRead).
  { destruct (String.eqb_spec acl ACLPrivate) as [?|Hpriv]; [tauto|].
    destruct (String.eqb_spec acl ACLPublicRead) as [?|Hpub]; [tauto|].
    exfalso. apply Hvalid. right; right. exists acl. tauto. }
  rewrite (New_valid_eq opts w region bucket acl flag Hr Hb Ha Hp Hflag Hacl) in HNew.
  destruct (sdk.NewSessionWithOptions _ _) as [sess|err] eqn:Hsess;
    [|discriminate].
  injection HNew as <- <-. exists region, flag, sess. simpl. tauto.
Qed.

(** What one call on an adapter with a client handle does: it returns,
    keeps the adapter, and adds its use of the SDK to the log. *)
Lemma exec_live (o : Method) (st : State R) svc :
  service (adapter st) = Some svc ->
  exists r st', exec o st = (Returned r, st') /\
    adapter st' = adapter st /\
    calls (world st') = (calls (world st) ++ call_of (adapter st) svc o)%list.
Proof.
  intros Hs. destruct o as [ref contents|ref|ref|]; unfold exec, bind.
  - rewrite (Put_live st svc ref contents Hs).
    destruct (sdk.Upload _ _ _) as [e r]. do 2 eexists. repeat split.
  - rewrite (Download_live st svc ref Hs).
    destruct (sdk.Download _ _ _) as [e r]. do 2 eexists. repeat split.
  - rewrite (Delete_live st svc ref Hs).
    destruct (sdk.DeleteObject _ _ _) as [e r]. do 2 eexists. repeat split.
  - rewrite (LinkBase_live st svc Hs). do 2 eexists. repeat split.
    simpl. rewrite app_nil_r. reflexivity.
Qed.

Lemma run_live (ops : list Method) (st : State R) svc :
  service (adapter st) = Some svc ->
  exists rs st', run ops st = (Returned rs, st') /\
    length rs = length ops /\
    adapter st' = adapter st /\
    calls (world st') = (calls (world st) ++ flat_map (call_of (adapter st) svc) ops)%list.
Proof.
  revert st. induction ops as [|o ops IH]; intros st Hs.
  - exists [], st. simpl. rewrite app_nil_r. repeat split.
  - destruct (exec_live o st svc Hs) as (r & st1 & He & Ha1 & Hc1).
    destruct (IH st1) as (rs & st2 & Hr & Hlen & Ha2 & Hc2); [congruence|].
    exists (r :: rs), st2. simpl. unfold bind at 1. rewrite He.
    unfold bind at 1. rewrite Hr. unfold ret. simpl.
    split; [reflexivity|]. split; [congruence|]. split; [congruence|].
    rewrite Hc2, Hc1, Ha1, <- app_assoc. reflexivity.
Qed.

(** The adapter uses the SDK once per call and never more.  Every sequence
    of calls on an adapter with a client handle returns a result per call,
    and the uses of the SDK it makes are, in order, one [Upload] of the
    managed uploader per [Put], one [Download] of the managed downloader per
    [Download], one [DeleteObject] per [Delete] and none for [LinkBase];
    each names the adapter's bucket, and each upload carries the adapter's
    ACL.  Into how many requests a managed transfer splits is the SDK's
    affair and not stated. *)
Theorem one_sdk_call_per_method (ops : list Method) (st : State R) (svc : sdk.S3)
    (H : service (adapter st) = Some svc) :
  (exists rs, fst (run ops st) = Returned rs /\ length rs = length ops) /\
  calls (world (snd (run ops st)))
  = (calls (world st) ++ flat_map (call_of (adapter st) svc) ops)%list.
Proof.
  destruct (run_live ops st svc H) as (rs & st' & Hr & Hlen & _ & Hc).
  rewrite Hr. simpl. split; [exists rs; split; [reflexivity|exact Hlen] | exact Hc].
Qed.

(** An adapter that [New] returned writes to the bucket of the options
    only, and with one of the two ACLs: every upload in the log after any
    sequence of calls was there before [New], or names that bucket and
    carries the ACL of the options, which is private or public-read. *)
Theorem uploads_of_a_new_adapter (opts : gmap string string) (w w' : World R)
    (s : s3Impl) (ops : list Method) (c : sdk.S3) (i : sdk.UploadInput)
    (HNew : New opts w = (Returned (inl s), w'))
    (Hin : CallUpload c i ∈
           calls (world (snd (run ops {| adapter := s; world := w' |})))) :
  CallUpload c i ∈ calls w \/
  (opts !! opt.bucketName = Some (sdk.Bucket i) /\
   opts !! opt.defaultACL = Some (sdk.ACL i) /\
   (sdk.ACL i = ACLPrivate \/ sdk.ACL i = ACLPublicRead)).
Proof.
  destruct (New_adapter opts w w' s HNew)
    as (region & flag & sess & _ & Hb & Ha & _ & _ & Hacl & _ & Hs & Hw).
  destruct (run_live ops {| adapter := s; world := w' |} (sdk.New sess) Hs)
    as (rs & st' & Hr & _ & _ & Hc).
  subst w'.
  rewrite Hr in Hin. simpl in Hin, Hc. rewrite Hc in Hin.
  apply elem_of_app in Hin as [Hin | Hin].
  - apply elem_of_app in Hin as [Hin | Hin]; [left; exact Hin|].
    apply list_elem_of_singleton in Hin. discriminate.
  - right. apply list_elem_of_In, in_flat_map in Hin.
    destruct Hin as (o & _ & Ho).
    destruct o as [ref contents|ref|ref|]; simpl in Ho;
      try (destruct Ho as [Ho|[]]; discriminate); try contradiction.
    destruct Ho as [Ho|[]]. injection Ho as _ <-. simpl. tauto.
Qed.

Lemma New_error (opts : gmap string string) (w w' : World R) (e : Error) :
  New opts w = (Returned (inr e), w') ->
  Op e = "cloud/storage/amazons3.New" /\ (kind e = Invalid \/ kind e = IO).
Proof.
  unfold New.
  destruct (opts !! opt.regionName) as [region|];
    [|intros [= <- _]; simpl; tauto].
  destruct (opts !! opt.bucketName) as [bucket|];
    [|intros [= <- _]; simpl; tauto].
  destruct (opts !! opt.defaultACL) as [acl|];
    [|intros [= <- _]; simpl; tauto].
  destruct (opts !! opt.pathstyle) as [flag|];
    [|intros [= <- _]; simpl; tauto].
  assert (Hbody : forall force : bool,
    (if negb (String.eqb acl ACLPrivate) && negb (String.eqb acl ACLPublicRead)
     then ret (inr (E "cloud/storage/amazons3.New" Invalid (errorString
            ("valid ACL values for S3 are " +:+ ACLPrivate +:+ " and "
             +:+ ACLPublicRead))))
     else
       let options :=
         {| session.Config := {| aws.Region := Some region;
                                 aws.Endpoint := opts !! opt.endpointURL;
                                 aws.S3ForcePathStyle := Some force |};
            session.SharedConfigState_ := session.SharedConfigEnable |} in
       let* r := invoke (CallNewSession options)
                   (fun rs => (sdk.NewSessionWithOptions options rs, rs)) in
       match r with
       | inr err => ret (inr (E "cloud/storage/amazons3.New" IO (errorString
           ("unable to create Amazon session: " +:+ error_text err))))
       | inl sess => ret (inl {| service := Some (sdk.New sess);
                                 bucketName := bucket;
                                 defaultWriteACL := acl |})
       end) w = (Returned (inr e), w') ->
    Op e = "cloud/storage/amazons3.New" /\ (kind e = Invalid \/ kind e = IO)).
  { intros force.
    destruct (negb (String.eqb acl ACLPrivate) && negb (String.eqb acl ACLPublicRead));
      [intros [= <- _]; simpl; tauto|].
    unfold bind, invoke, ret. simpl.
    destruct (sdk.NewSessionWithOptions _ _) as [sess|err]; [discriminate|].
    intros [= <- _]. simpl. tauto. }
  destruct (String.eqb (TrimSpace flag) "true"); [apply Hbody|].
  destruct (String.eqb (TrimSpace flag) "false"); [apply Hbody|].
  intros [= <- _]. simpl. tauto.
Qed.

(** The errors of the adapter are of three kinds and name their origin: an
    error of [New] is Invalid or IO, an error of [Download] is NotExist or
    IO, an error of [Put] or [Delete] is IO, and each carries the name of
    the operation that returned it. *)
Theorem errors_are_of_three_kinds (opts : gmap string string) (w : World R)
    (st : State R) (ref : string) (contents : list byte) (e : Error) :
  (fst (New opts w) = Returned (inr e) ->
     Op e = "cloud/storage/amazons3.New" /\ (kind e = Invalid \/ kind e = IO)) /\
  (fst (Download ref st) = Returned (inr e) ->
     Op e = "cloud/storage/amazons3.Download" /\ (kind e = NotExist \/ kind e = IO)) /\
  (fst (Put ref contents st) = Returned (Some e) ->
     Op e = "cloud/storage/amazons3.Put" /\ kind e = IO) /\
  (fst (Delete ref st) = Returned (Some e) ->
     Op e = "cloud/storage/amazons3.Delete" /\ kind e = IO).
Proof.
  split; [|split; [|split]].
  - destruct (New opts w) as [o w'] eqn:HNew. simpl. intros ->.
    exact (New_error opts w w' e HNew).
  - destruct (service (adapter st)) as [svc|] eqn:Hs.
    + rewrite (Download_live st svc ref Hs).
      destruct (sdk.Download _ _ _) as [[buf|err] r]; simpl; [discriminate|].
      intros [= <-]. unfold download_error.
      destruct (StatusCode err) as [z|]; [|simpl; tauto].
      destruct z as [|q|q]; try (simpl; tauto).
      repeat (destruct q as [q|q|]; try (simpl; tauto)).
    + unfold Download, receiver, deref, bind, panic. simpl. rewrite Hs.
      discriminate.
  - destruct (service (adapter st)) as [svc|] eqn:Hs.
    + rewrite (Put_live st svc ref contents Hs).
      destruct (sdk.Upload _ _ _) as [[err|] r]; simpl; intros [= <-].
      simpl. tauto.
    + unfold Put, receiver, deref, bind, panic. simpl. rewrite Hs. discriminate.
  - destruct (service (adapter st)) as [svc|] eqn:Hs.
    + rewrite (Delete_live st svc ref Hs).
      destruct (sdk.DeleteObject _ _ _) as [[err|] r]; simpl; intros [= <-].
      simpl. tauto.
    + unfold Delete, receiver, deref, bind, panic. simpl. rewrite Hs.
      discriminate.
Qed.

Lemma trim_left_spaces (tbl : list (list nat)) (l rest : list ascii) :
  (forall a r, is_ascii_space a -> space_width tbl (a :: r) = 1%nat) ->
  Forall is_ascii_space l ->
  trim_left tbl (l ++ rest)%list = trim_left tbl rest.
Proof.
  intros Hone Hl. induction Hl as [|a l Ha Hl IH]; [reflexivity|].
  rewrite <- app_comm_cons. cbn [trim_left].
  rewrite (Hone a (l ++ rest)%list Ha). exact IH.
Qed.

Lemma trim_left_none (tbl : list (list nat)) (s : list ascii) :
  space_width tbl s = 0%nat -> trim_left tbl s = s.
Proof. intros H. destruct s as [|a s]; [reflexivity|]. cbn [trim_left]. rewrite H. reflexivity. Qed.

Lemma space_width_ascii_space (a : ascii) (r : list ascii) :
  is_ascii_space a ->
  space_width space_runes (a :: r) = 1%nat /\
  space_width (map (@rev nat) space_runes) (a :: r) = 1%nat.
Proof.
  unfold is_ascii_space. simpl.
  intros [H|[H|[H|[H|[H|[H|[]]]]]]]; rewrite <- H; split; reflexivity.
Qed.

Lemma list_ascii_of_append (s t : string) :
  list_ascii_of_string (s +:+ t)
  = (list_ascii_of_string s ++ list_ascii_of_string t)%list.
Proof. induction s as [|c s IH]; simpl; [reflexivity|]. f_equal. exact IH. Qed.

Lemma TrimSpace_padded_flag (l r : list ascii) (b : bool) :
  Forall is_ascii_space l -> Forall is_ascii_space r ->
  TrimSpace (string_of_list_ascii l +:+ (if b then "true" else "false")
             +:+ string_of_list_ascii r)
  = (if b then "true" else "false").
Proof.
  intros Hl Hr. unfold TrimSpace.
  rewrite !list_ascii_of_append, !list_ascii_of_string_of_list_ascii.
  rewrite (trim_left_spaces space_runes l _
             (fun a r0 Ha => proj1 (space_width_ascii_space a r0 Ha)) Hl).
  assert (Hrev : Forall is_ascii_space (rev r)).
  { apply Forall_forall. intros a Ha. apply list_elem_of_In, in_rev in Ha.
    rewrite Forall_forall in Hr. apply Hr, list_elem_of_In. exact Ha. }
  destruct b; cbn [list_ascii_of_string app].
  - rewrite (trim_left_none space_runes) by reflexivity.
    cbn [rev]. rewrite <- !app_assoc. cbn [app].
    rewrite (trim_left_spaces _ (rev r) _
               (fun a r0 Ha => proj2 (space_width_ascii_space a r0 Ha)) Hrev).
    reflexivity.
  - rewrite (trim_left_none space_runes) by reflexivity.
    cbn [rev]. rewrite <- !app_assoc. cbn [app].
    rewrite (trim_left_spaces _ (rev r) _
               (fun a r0 Ha => proj2 (space_width_ascii_space a r0 Ha)) Hrev).
    reflexivity.
Qed.

(** Blanks around the flag do not matter: with the pathstyle option written
    as true or false between any tabs, line breaks and spaces, [New] does
    what it does on the bare word. *)
Theorem New_flag_may_be_padded (opts : gmap string string) (w : World R)
    (l r : list ascii) (b : bool)
    (Hl : Forall is_ascii_space l) (Hr : Forall is_ascii_space r) :
  New (<[opt.pathstyle := string_of_list_ascii l +:+ (if b then "true" else "false")
                          +:+ string_of_list_ascii r]> opts) w
  = New (<[opt.pathstyle := if b then "true" else "false"]> opts) w.
Proof.
  unfold New.
  rewrite !(lookup_insert_ne _ opt.pathstyle opt.regionName) by discriminate.
  rewrite !(lookup_insert_ne _ opt.pathstyle opt.endpointURL) by discriminate.
  rewrite !(lookup_insert_ne _ opt.pathstyle opt.bucketName) by discriminate.
  rewrite !(lookup_insert_ne _ opt.pathstyle opt.defaultACL) by discriminate.
  rewrite !lookup_insert_eq.
  rewrite (TrimSpace_padded_flag l r b Hl Hr).
  destruct b; reflexivity.
Qed.

End AdapterMore.

(** * Further properties of blobs through the adapter *)

Section StorageMore.
Context {fmt : GoFmt}.
#[local] Existing Instance fake.api.

(** A [Put] succeeds exactly when the request meets no transport failure
    and the bucket of the adapter exists, and a [Put] that fails changes no
    bucket: no part of a failed write is visible. *)
Theorem Put_all_or_nothing (st : State fake.Remote) (svc : sdk.S3) (ref : string)
    (B : list byte) (H : service (adapter st) = Some svc) :
  (fst (Put ref B st) = Returned None <->
   no_fault (remote (world st)) /\
   is_Some (fake.buckets (remote (world st)) !! bucketName (adapter st))) /\
  (fst (Put ref B st) <> Returned None ->
   fake.buckets (remote (world (snd (Put ref B st))))
   = fake.buckets (remote (world st))).
Proof.
  rewrite (Put_live st svc ref B H). simpl.
  unfold fake.Upload, no_fault.
  pose proof (next_fault_buckets (remote (world st))) as Hnf.
  destruct (fake.next_fault (remote (world st))) as [[f|] r1]; simpl in *.
  - split; [|intros _; exact Hnf].
    split; [discriminate | intros [? _]; discriminate].
  - rewrite Hnf.
    destruct (fake.buckets (remote (world st)) !! bucketName (adapter st))
      as [objs|] eqn:Hb; simpl.
    + split; [|congruence]. split; [intros _; split; [reflexivity|eauto]|reflexivity].
    + split; [|intros _; exact Hnf].
      split; [discriminate | intros [_ [? ?]]; discriminate].
Qed.

(** The state in which every request goes through: a client handle, no
    scripted failure left, and the bucket there. *)
Lemma Put_ready (st : State fake.Remote) svc ref B :
  service (adapter st) = Some svc ->
  fake.faults (remote (world st)) = [] ->
  is_Some (fake.buckets (remote (world st)) !! bucketName (adapter st)) ->
  exists st', Put ref B st = (Returned None, st') /\
    adapter st' = adapter st /\
    fake.faults (remote (world st')) = [] /\
    is_Some (fake.buckets (remote (world st')) !! bucketName (adapter st')) /\
    stored st' ref = Some B.
Proof.
  intros Hs Hf [objs Hb].
  rewrite (Put_live st svc ref B Hs). simpl.
  unfold fake.Upload, fake.next_fault. rewrite Hf. simpl. rewrite Hb.
  eexists. split; [reflexivity|]. simpl. split; [reflexivity|].
  split; [exact Hf|]. split.
  - rewrite lookup_insert_eq. eauto.
  - unfold stored, fake.blob. simpl. rewrite lookup_insert_eq. simpl.
    apply lookup_insert_eq.
Qed.

Lemma Puts_ready (kvs : list (string * list byte)) (st : State fake.Remote) svc :
  service (adapter st) = Some svc ->
  fake.faults (remote (world st)) = [] ->
  is_Some (fake.buckets (remote (world st)) !! bucketName (adapter st)) ->
  NoDup kvs.*1 ->
  exists st', run (map (fun kv => OpPut kv.1 kv.2) kvs) st
              = (Returned (map (fun _ => ResPut None) kvs), st') /\
    adapter st' = adapter st /\
    fake.faults (remote (world st')) = [] /\
    (forall k v, (k, v) ∈ kvs -> stored st' k = Some v).
Proof.
  revert st. induction kvs as [|[k v] kvs IH]; intros st Hs Hf Hb Hnd.
  - exists st. repeat split; try assumption. intros k v Hin.
    apply elem_of_nil in Hin. contradiction.
  - apply NoDup_cons in Hnd as [Hk Hnd]. simpl in Hk.
    destruct (Put_ready st svc k v Hs Hf Hb) as (st1 & HPut & Ha1 & Hf1 & Hb1 & Hst1).
    destruct (IH st1) as (st2 & Hrun & Ha2 & Hf2 & Hst2); try assumption;
      [congruence|].
    exists st2. simpl. unfold bind at 1. unfold bind at 1. rewrite HPut.
    unfold ret at 1. unfold bind at 1. rewrite Hrun. unfold ret. simpl.
    split; [reflexivity|]. split; [congruence|]. split; [exact Hf2|].
    intros k' v' Hin. apply elem_of_cons in Hin as [[= -> ->] | Hin];
      [|exact (Hst2 k' v' Hin)].
    assert (Hkeep : forallb (fun o => negb (writes k o))
                      (map (fun kv => OpPut kv.1 kv.2) kvs) = true).
    { apply forallb_forall. intros o Ho. apply in_map_iff in Ho.
      destruct Ho as ([k' v'] & <- & Hin). simpl.
      apply negb_true_iff, String.eqb_neq. intros ->.
      apply Hk. apply list_elem_of_fmap. exists (k, v').
      split; [reflexivity|]. apply list_elem_of_In. exact Hin. }
    pose proof (proj1 (run_stored _ st1 k) Hkeep) as Hsame.
    rewrite Hrun in Hsame. simpl in Hsame. congruence.
Qed.

(** No cross-talk.  With the bucket there and no transport failure, writes
    to refs that are pairwise distinct all succeed, and afterwards a
    [Download] of each of the refs returns the blob written under it. *)
Theorem distinct_refs_independent (kvs : list (string * list byte))
    (st : State fake.Remote) (svc : sdk.S3)
    (Hs : service (adapter st) = Some svc)
    (Hf : fake.faults (remote (world st)) = [])
    (Hb : is_Some (fake.buckets (remote (world st)) !! bucketName (adapter st)))
    (Hnd : NoDup kvs.*1) :
  let puts := map (fun kv => OpPut kv.1 kv.2) kvs in
  fst (run puts st) = Returned (map (fun _ => ResPut None) kvs) /\
  (forall k v, (k, v) ∈ kvs ->
     fst (Download k (snd (run puts st))) = Returned (inl v)).
Proof.
  intros puts.
  destruct (Puts_ready kvs st svc Hs Hf Hb Hnd) as (st' & Hrun & Ha & Hf' & Hst).
  unfold puts. rewrite Hrun. simpl. split; [reflexivity|].
  intros k v Hin.
  destruct (Download_stored st' svc k) as [_ Hdl]; [congruence|].
  rewrite (Hst k v Hin) in Hdl. apply Hdl.
  unfold no_fault, fake.next_fault. rewrite Hf'. reflexivity.
Qed.

End StorageMore.

(** * Further properties of the clean-up *)

Section CleanMore.
Variable cloud : setup.Request -> option error.

Lemma clean_step_panics (r : setup.Request) (what : string)
    (k : unit -> M setup.Console unit) (c : setup.Console) (e : error) :
  cloud r = Some e -> StatusCode e = None ->
  bind (setup.send cloud r) (fun err => bind (setup.report err what) k) c
  = (Panicked InterfaceConversion,
     {| setup.output := setup.output c; setup.sent := (setup.sent c ++ [r])%list |}).
Proof.
  intros He Hcode.
  unfold setup.send, setup.report, setup.assertStatusCode, panic, bind.
  simpl. rewrite He, Hcode. reflexivity.
Qed.

Lemma clean_last_panics (r : setup.Request) (what : string)
    (c : setup.Console) (e : error) :
  cloud r = Some e -> StatusCode e = None ->
  bind (setup.send cloud r) (fun err => setup.report err what) c
  = (Panicked InterfaceConversion,
     {| setup.output := setup.output c; setup.sent := (setup.sent c ++ [r])%list |}).
Proof.
  intros He Hcode.
  unfold setup.send, setup.report, setup.assertStatusCode, panic, bind.
  simpl. rewrite He, Hcode. reflexivity.
Qed.

Lemma clean_all_status_coded (roleName bucketName region : string)
    (c : setup.Console) :
  (forall rw, rw ∈ cleanup_steps roleName bucketName region ->
     status_coded cloud rw.1) ->
  setup.clean cloud roleName bucketName region c
  = (Returned tt,
     {| setup.output :=
          (setup.output c ++ "Cleaning up..." ::
           flat_map (fun rw => reported cloud rw.1 rw.2)
             (cleanup_steps roleName bucketName region))%list;
        setup.sent :=
          (setup.sent c ++ (cleanup_steps roleName bucketName region).*1)%list |}).
Proof.
  intros Hall.
  assert (H1 := Hall _ (list_elem_of_here _ _)).
  assert (H2 := Hall _ (list_elem_of_further _ _ _ (list_elem_of_here _ _))).
  assert (H3 := Hall _ (list_elem_of_further _ _ _
                  (list_elem_of_further _ _ _ (list_elem_of_here _ _)))).
  assert (H4 := Hall _ (list_elem_of_further _ _ _ (list_elem_of_further _ _ _
                  (list_elem_of_further _ _ _ (list_elem_of_here _ _))))).
  assert (H5 := Hall _ (list_elem_of_further _ _ _ (list_elem_of_further _ _ _
                  (list_elem_of_further _ _ _ (list_elem_of_further _ _ _
                  (list_elem_of_here _ _)))))).
  simpl in H1, H2, H3, H4, H5.
  unfold setup.clean. unfold bind at 1. unfold setup.log_Print at 1. simpl.
  rewrite clean_step by exact H1. simpl.
  rewrite clean_step by exact H2. simpl.
  rewrite clean_step by exact H3. simpl.
  rewrite clean_step by exact H4. simpl.
  rewrite clean_last by exact H5. simpl.
  rewrite app_nil_r, <- !app_assoc. reflexivity.
Qed.

(** When every failure among the five answers is a request failure,
    [clean] returns, has sent the five requests in order, and has printed
    the banner and then, request by request, one line exactly for each
    failure whose status is not 404; the line holds the text of the error. *)
Theorem clean_reports_all_but_404 (roleName bucketName region : string)
    (c : setup.Console)
    (H : forall rw, rw ∈ cleanup_steps roleName bucketName region ->
           status_coded cloud rw.1) :
  setup.clean cloud roleName bucketName region c
  = (Returned tt,
     {| setup.output :=
          (setup.output c ++ "Cleaning up..." ::
           flat_map (fun rw => reported cloud rw.1 rw.2)
             (cleanup_steps roleName bucketName region))%list;
        setup.sent :=
          (setup.sent c ++ (cleanup_steps roleName bucketName region).*1)%list |}).
Proof. exact (clean_all_status_coded roleName bucketName region c H). Qed.

(** Cleaning up what is not there is quiet: when each of the five requests
    succeeds or fails with status 404, [clean] prints the banner alone. *)
Theorem clean_of_nothing_is_quiet (roleName bucketName region : string)
    (c : setup.Console)
    (H : forall rw, rw ∈ cleanup_steps roleName bucketName region ->
           cloud rw.1 = None \/
           exists e, cloud rw.1 = Some e /\ StatusCode e = Some 404) :
  fst (setup.clean cloud roleName bucketName region c) = Returned tt /\
  setup.output (snd (setup.clean cloud roleName bucketName region c))
  = (setup.output c ++ ["Cleaning up..."])%list.
Proof.
  assert (Hq : forall l : list (setup.Request * string),
            (forall rw, rw ∈ l -> rw ∈ cleanup_steps roleName bucketName region) ->
            flat_map (fun rw => reported cloud rw.1 rw.2) l = []).
  { induction l as [|rw l IH]; intros Hl; [reflexivity|]. simpl.
    rewrite IH by (intros rw' Hin; apply Hl; right; exact Hin).
    rewrite app_nil_r. unfold reported.
    destruct (H rw (Hl rw (list_elem_of_here _ _))) as [-> | (e & -> & ->)];
      reflexivity. }
  rewrite clean_all_status_coded.
  - cbn [fst snd setup.output]. rewrite Hq by auto. split; reflexivity.
  - intros rw Hin e He.
    destruct (H rw Hin) as [Hnone | (e' & He' & Hcode)]; [congruence|].
    assert (e = e') by congruence. subst. eauto.
Qed.

Lemma clean_stops (roleName bucketName region : string)
    (c : setup.Console) (n : nat) (r : setup.Request) (e : error) :
  (cleanup_steps roleName bucketName region).*1 !! n = Some r ->
  cloud r = Some e ->
  StatusCode e = None ->
  (forall m r', (m < n)%nat ->
     (cleanup_steps roleName bucketName region).*1 !! m = Some r' ->
     status_coded cloud r') ->
  exists out,
    setup.clean cloud roleName bucketName region c
    = (Panicked InterfaceConversion,
       {| setup.output := out;
          setup.sent :=
            (setup.sent c ++
             take (S n) (cleanup_steps roleName bucketName region).*1)%list |}).
Proof.
  intros Hn He Hplain Hbefore.
  unfold setup.clean. unfold bind at 1. unfold setup.log_Print at 1. simpl.
  destruct n as [|[|[|[|[|n]]]]]; simpl in Hn; try discriminate;
    injection Hn as <-.
  - rewrite (clean_step_panics _ _ _ _ e He Hplain). eexists; reflexivity.
  - rewrite clean_step by (apply (Hbefore 0%nat); [lia|reflexivity]). simpl.
    rewrite (clean_step_panics _ _ _ _ e He Hplain). simpl.
    rewrite <- !app_assoc. eexists; reflexivity.
  - rewrite clean_step by (apply (Hbefore 0%nat); [lia|reflexivity]). simpl.
    rewrite clean_step by (apply (Hbefore 1%nat); [lia|reflexivity]). simpl.
    rewrite (clean_step_panics _ _ _ _ e He Hplain). simpl.
    rewrite <- !app_assoc. eexists; reflexivity.
  - rewrite clean_step by (apply (Hbefore 0%nat); [lia|reflexivity]). simpl.
    rewrite clean_step by (apply (Hbefore 1%nat); [lia|reflexivity]). simpl.
    rewrite clean_step by (apply (Hbefore 2%nat); [lia|reflexivity]). simpl.
    rewrite (clean_step_panics _ _ _ _ e He Hplain). simpl.
    rewrite <- !app_assoc. eexists; reflexivity.
  - rewrite clean_step by (apply (Hbefore 0%nat); [lia|reflexivity]). simpl.
    rewrite clean_step by (apply (Hbefore 1%nat); [lia|reflexivity]). simpl.
    rewrite clean_step by (apply (Hbefore 2%nat); [lia|reflexivity]). simpl.
    rewrite clean_step by (apply (Hbefore 3%nat); [lia|reflexivity]). simpl.
    rewrite (clean_last_panics _ _ _ e He Hplain). simpl.
    rewrite <- !app_assoc. eexists; reflexivity.
Qed.

(** [clean] stops at the first failure that is no request failure: when
    the answers before the [n]-th request are successes or request failures
    and the [n]-th is a failure without a status code, [clean] panics in
    the type assertion, and the requests sent are the first [n] and that
    one; the later ones are never sent. *)
Theorem clean_stops_at_plain_failure (roleName bucketName region : string)
    (c : setup.Console) (n : nat) (r : setup.Request) (e : error)
    (Hn : (cleanup_steps roleName bucketName region).*1 !! n = Some r)
    (He : cloud r = Some e)
    (Hplain : StatusCode e = None)
    (Hbefore : forall m r', (m < n)%nat ->
       (cleanup_steps roleName bucketName region).*1 !! m = Some r' ->
       status_coded cloud r') :
  fst (setup.clean cloud roleName bucketName region c)
  = Panicked InterfaceConversion /\
  setup.sent (snd (setup.clean cloud roleName bucketName region c))
  = (setup.sent c ++ take (S n) (cleanup_steps roleName bucketName region).*1)%list.
Proof.
  destruct (clean_stops roleName bucketName region c n r e Hn He Hplain Hbefore)
    as [out ->].
  split; reflexivity.
Qed.

(** [clean] returns exactly when none of the five answers is a failure
    without a status code; otherwise it panics. *)
Theorem clean_returns_iff (roleName bucketName region : string) (c : setup.Console) :
  (fst (setup.clean cloud roleName bucketName region c) = Returned tt <->
   forall rw, rw ∈ cleanup_steps roleName bucketName region ->
     status_coded cloud rw.1) /\
  (fst (setup.clean cloud roleName bucketName region c) = Returned tt \/
   fst (setup.clean cloud roleName bucketName region c)
   = Panicked InterfaceConversion).
Proof.
  assert (Hdec : forall r, status_coded cloud r \/
                   exists e, cloud r = Some e /\ StatusCode e = None).
  { intros r. unfold status_coded. destruct (cloud r) as [e|]; [|left; discriminate].
    destruct (StatusCode e) as [code|] eqn:Hc; [left|right; eauto].
    intros e' [= <-]. rewrite Hc. eauto. }
  assert (Hfirst : forall l : list setup.Request,
            (forall r, r ∈ l -> status_coded cloud r) \/
            exists n r e, l !! n = Some r /\ cloud r = Some e /\ StatusCode e = None /\
              forall m r', (m < n)%nat -> l !! m = Some r' -> status_coded cloud r').
  { induction l as [|r l IH].
    - left. intros r Hin. apply elem_of_nil in Hin. contradiction.
    - destruct (Hdec r) as [Hok | (e & He & Hc)].
      + destruct IH as [Hall | (n & r' & e & Hn & He & Hc & Hb)].
        * left. intros r' [-> | Hin]%elem_of_cons; auto.
        * right. exists (S n), r', e. repeat split; try assumption.
          intros [|m] r'' Hlt Hm; simpl in Hm; [injection Hm as <-; exact Hok|].
          apply (Hb m); [lia | exact Hm].
      + right. exists 0%nat, r, e. repeat split; try assumption.
        intros m r' Hlt. lia. }
  destruct (Hfirst (cleanup_steps roleName bucketName region).*1)
    as [Hall | (n & r & e & Hn & He & Hc & Hb)].
  - assert (Hall' : forall rw, rw ∈ cleanup_steps roleName bucketName region ->
                      status_coded cloud rw.1).
    { intros rw Hin. apply Hall. apply list_elem_of_fmap. eauto. }
    rewrite (clean_all_status_coded roleName bucketName region c Hall'). simpl.
    split; [tauto | left; reflexivity].
  - destruct (clean_stops roleName bucketName region c n r e Hn He Hc Hb) as [out ->].
    simpl. split; [|right; reflexivity].
    split; [discriminate|]. intros Hall. exfalso.
    apply list_elem_of_lookup_2 in Hn. apply list_elem_of_fmap in Hn.
    destruct Hn as (rw & -> & Hin).
    destruct (Hall rw Hin e He) as [code Hcode]. congruence.
Qed.

End CleanMore.

(** * The provisioning run *)

Section MainFacts.
Context {F Rest : Type} (env : setupstorage.Env F Rest).

Ltac run_main :=
  unfold setupstorage.main, setupstorage.createRoleAccount,
    setupstorage.createInstanceProfile, setupstorage.createBucket,
    setupstorage.attachRolePolicy, setupstorage.readConfig,
    setupstorage.writeConfig, setupstorage.Fprintf_stderr,
    setupstorage.on_console, setupstorage.send, deref, panic, bind, ret.

Ltac split_cases :=
  repeat (match goal with
          | |- context [match ?x with _ => _ end] =>
              lazymatch x with
              | context [match _ with _ => _ end] => fail
              | _ => destruct x eqn:?
              end
          end; simpl).

Lemma length_zero_empty (s : string) :
  Nat.eqb (String.length s) 0 = true <-> s = EmptyString.
Proof. destruct s; simpl; split; congruence. Qed.

(** [main] checks before it acts: when no session can be created, or the
    arguments are not exactly one bucket name, or the domain is empty, it
    ends in [Exitf] having sent no request, read no file and printed nothing. *)
Theorem main_checks_first (fl : setupstorage.Flags) (m : setupstorage.Machine F)
    (H : is_Some (setupstorage.session_error env) \/
         length (setupstorage.args fl) <> 1%nat \/
         setupstorage.domain fl = EmptyString) :
  exists msg, setupstorage.main env fl m = (Returned (setupstorage.Exitf msg), m).
Proof.
  unfold setupstorage.main, ret.
  destruct (setupstorage.session_error env) as [err|]; [eauto|].
  destruct (Nat.eqb_spec (length (setupstorage.args fl)) 1) as [Hlen|Hlen];
    simpl; [|eauto].
  destruct (Nat.eqb (String.length (setupstorage.domain fl)) 0) eqn:Hdom; [eauto|].
  exfalso. destruct H as [[e He] | [Hargs | Hd]]; [discriminate | tauto |].
  apply length_zero_empty in Hd. congruence.
Qed.

Lemma main_passes_checks (fl : setupstorage.Flags) :
  setupstorage.session_error env = None ->
  setupstorage.well_formed fl ->
  negb (Nat.eqb (length (setupstorage.args fl)) 1) = false /\
  Nat.eqb (String.length (setupstorage.domain fl)) 0 = false.
Proof.
  intros _ [Hlen Hdom]. rewrite Hlen. split; [reflexivity|].
  destruct (Nat.eqb (String.length (setupstorage.domain fl)) 0) eqn:Hd;
    [|reflexivity].
  apply length_zero_empty in Hd. contradiction.
Qed.

(** With [-clean], [main] runs the clean-up and nothing else: no
    provisioning request is sent, the configuration is neither read nor
    written, and the run ends in [ExitNow] whatever the clean-up printed,
    unless the clean-up panicked. *)
Theorem main_clean_only_cleans (fl : setupstorage.Flags) (m : setupstorage.Machine F)
    (Hs : setupstorage.session_error env = None)
    (Hwf : setupstorage.well_formed fl)
    (Hclean : setupstorage.clean fl = true) :
  let cleaned :=
    setup.clean (setupstorage.cloud env) (setupstorage.roleName fl)
      (hd EmptyString (setupstorage.args fl)) (setupstorage.region fl)
      (setupstorage.console m) in
  setupstorage.main env fl m
  = (match fst cleaned with
     | Returned _ => Returned setupstorage.ExitNow
     | Panicked p => Panicked p
     end,
     {| setupstorage.console := snd cleaned;
        setupstorage.requests := setupstorage.requests m;
        setupstorage.stderr := setupstorage.stderr m;
        setupstorage.files := setupstorage.files m |}).
Proof.
  intros cleaned. destruct (main_passes_checks fl Hs Hwf) as [Hargs Hdom].
  unfold setupstorage.main. rewrite Hs, Hargs, Hdom, Hclean.
  unfold bind, setupstorage.on_console, ret. fold cleaned.
  destruct cleaned as [[[]|p] c]; reflexivity.
Qed.

(** Without [-clean], [main] stops at the first request that fails and
    rolls nothing back: every request it sent, but perhaps the last, was
    answered with success, and no clean-up request is sent and nothing is
    logged, so what the earlier steps created stays. *)
Theorem provisioning_stops_at_first_failure (fl : setupstorage.Flags)
    (m : setupstorage.Machine F)
    (Hclean : setupstorage.clean fl = false) :
  setupstorage.console (snd (setupstorage.main env fl m)) = setupstorage.console m /\
  exists l,
    setupstorage.requests (snd (setupstorage.main env fl m))
    = (setupstorage.requests m ++ l)%list /\
    forall r, r ∈ removelast l -> exists role, setupstorage.respond env r
                                               = setupstorage.Done role.
Proof.
  run_main. rewrite Hclean.
  assert (Hnone : exists l : list setupstorage.Request,
            setupstorage.requests m = (setupstorage.requests m ++ l)%list /\
            forall r, r ∈ removelast l ->
              exists role, setupstorage.respond env r = setupstorage.Done role).
  { exists []. rewrite app_nil_r. split; [reflexivity|].
    intros r Hin. apply elem_of_nil in Hin. contradiction. }
  split_cases; (split; [reflexivity|]); try exact Hnone;
    rewrite <- ?app_assoc; simpl;
    (eexists; split; [reflexivity|]); simpl;
    intros q Hin;
    repeat (apply elem_of_cons in Hin as [-> | Hin]; [eauto|]);
    apply elem_of_nil in Hin; contradiction.
Qed.

(** The configuration file is written only at the end of a run in which
    everything went through: if the files differ after [main], the run ended
    in [ExitNow], the configuration was read, the five provisioning requests
    were sent in order and each was answered with success, and the file
    written is the configuration read with its store configuration replaced
    by the four entries for the bucket and the region. *)
Theorem config_written_only_after_all_steps (fl : setupstorage.Flags)
    (m : setupstorage.Machine F)
    (H : setupstorage.files (snd (setupstorage.main env fl m))
         <> setupstorage.files m) :
  fst (setupstorage.main env fl m) = Returned setupstorage.ExitNow /\
  exists r cfg,
    let path := setupstorage.Join env (setupstorage.where_ fl)
                  (setupstorage.domain fl) in
    setupstorage.ReadServerConfig env path (setupstorage.files m) = Some cfg /\
    (forall q, q ∈ setupstorage.provisioning fl r ->
       exists role, setupstorage.respond env q = setupstorage.Done role) /\
    setupstorage.requests (snd (setupstorage.main env fl m))
    = (setupstorage.requests m ++ setupstorage.provisioning fl r)%list /\
    setupstorage.WriteServerConfig env path
      {| setupstorage.rest := setupstorage.rest cfg;
         setupstorage.StoreConfig :=
           setup.StoreConfig (hd EmptyString (setupstorage.args fl))
             (setupstorage.region fl) |}
      (setupstorage.files m)
    = Some (setupstorage.files (snd (setupstorage.main env fl m))).
Proof.
  revert H. run_main. unfold setupstorage.provisioning.
  split_cases; intros H; try (exfalso; apply H; reflexivity).
  split; [reflexivity|]. do 2 eexists. split; [reflexivity|].
  split; [|split; [rewrite <- !app_assoc; reflexivity | assumption]].
  intros q Hin.
  repeat (apply elem_of_cons in Hin as [-> | Hin]; [eauto|]).
  apply elem_of_nil in Hin. contradiction.
Qed.

(** A run in which everything goes through sends the five requests, the
    instance profile and the policy attachment under the name of the role
    that [CreateRole] returned, writes the configuration with the four
    store entries, tells the operator to go on, and ends in [ExitNow]. *)
Theorem provisioning_success (fl : setupstorage.Flags) (m : setupstorage.Machine F)
    (r : iam.Role) (cfg : setupstorage.ServerConfig Rest) (f' : F)
    (Hs : setupstorage.session_error env = None)
    (Hwf : setupstorage.well_formed fl)
    (Hclean : setupstorage.clean fl = false)
    (Hread : setupstorage.ReadServerConfig env
               (setupstorage.Join env (setupstorage.where_ fl) (setupstorage.domain fl))
               (setupstorage.files m) = Some cfg)
    (Hrole : setupstorage.respond env
               (setupstorage.CreateRole (setupstorage.roleName fl)
                  "Used for storing data from the Upspin service"
                  setupstorage.rolePolicyDocument)
             = setupstorage.Done (Some r))
    (Hdone : forall q, q ∈ setupstorage.provisioning fl r ->
               exists role, setupstorage.respond env q = setupstorage.Done role)
    (Hwrite : setupstorage.WriteServerConfig env
                (setupstorage.Join env (setupstorage.where_ fl) (setupstorage.domain fl))
                {| setupstorage.rest := setupstorage.rest cfg;
                   setupstorage.StoreConfig :=
                     setup.StoreConfig (hd EmptyString (setupstorage.args fl))
                       (setupstorage.region fl) |}
                (setupstorage.files m) = Some f') :
  setupstorage.main env fl m
  = (Returned setupstorage.ExitNow,
     {| setupstorage.console := setupstorage.console m;
        setupstorage.requests :=
          (setupstorage.requests m ++ setupstorage.provisioning fl r)%list;
        setupstorage.stderr :=
          (setupstorage.stderr m ++
           ["You should now deploy the upspinserver binary and run 'upspin setupserver'."
            +:+ setupstorage.nl])%list;
        setupstorage.files := f' |}).
Proof.
  destruct (main_passes_checks fl Hs Hwf) as [Hargs Hdom].
  assert (H2 := Hdone _ (list_elem_of_further _ _ _ (list_elem_of_here _ _))).
  assert (H3 := Hdone _ (list_elem_of_further _ _ _
                  (list_elem_of_further _ _ _ (list_elem_of_here _ _)))).
  assert (H4 := Hdone _ (list_elem_of_further _ _ _ (list_elem_of_further _ _ _
                  (list_elem_of_further _ _ _ (list_elem_of_here _ _))))).
  assert (H5 := Hdone _ (list_elem_of_further _ _ _ (list_elem_of_further _ _ _
                  (list_elem_of_further _ _ _ (list_elem_of_further _ _ _
                  (list_elem_of_here _ _)))))).
  destruct H2 as [o2 H2], H3 as [o3 H3], H4 as [o4 H4], H5 as [o5 H5].
  run_main. unfold setupstorage.provisioning.
  rewrite Hs, Hargs, Hdom, Hclean. simpl. rewrite Hread, Hrole. simpl.
  rewrite H2. simpl. rewrite H3. simpl. rewrite H4. simpl. rewrite H5. simpl.
  rewrite Hwrite. simpl. rewrite <- !app_assoc. reflexivity.
Qed.

End MainFacts.

(** * The tests of the adapter *)

Section TestFacts.
Context {fmt : GoFmt} {R : Type} {api : sdk.API R}.

Lemma New_without_pathstyle (opts : gmap string string) (w : World R)
    (region bucket acl : string) :
  opts !! opt.regionName = Some region ->
  opts !! opt.bucketName = Some bucket ->
  opts !! opt.defaultACL = Some acl ->
  opts !! opt.pathstyle = None ->
  New opts w
  = (Returned (inr (E "cloud/storage/amazons3.New" Invalid
       (errorString (Quote opt.pathstyle +:+ " option is required")))), w).
Proof. intros Hr Hb Ha Hp. unfold New. rewrite Hr, Hb, Ha, Hp. reflexivity. Qed.

(** [TestMain] never runs the tests.  Without [-use_aws] it prints why and
    exits with 0; with it, the three options it dials with lack the
    pathstyle key, so [New] fails with Invalid and [TestMain] prints that
    error and exits with 1.  Either way no session is requested, no bucket
    is created, and the result does not depend on [m.Run]. *)
Theorem TestMain_never_runs_the_tests {buckets : s3test.BucketAPI R}
    (Run : M (s3test.Process R) Z) (fl : s3test.Flags) (p : s3test.Process R) :
  s3test.TestMain Run fl p
  = if s3test.useAWS fl
    then (Returned 1,
          {| s3test.client := None;
             s3test.sdk_world := s3test.sdk_world p;
             s3test.bucket_calls := s3test.bucket_calls p;
             s3test.printed :=
               (s3test.printed p ++
                [s3test.Printf "cloud/storage/amazons3: couldn't set up client: %v"
                   [s3test.ArgError (E "cloud/storage/amazons3.New" Invalid
                      (errorString (Quote opt.pathstyle +:+ " option is required")))]])%list;
             s3test.failed := s3test.failed p |})
    else (Returned 0,
          {| s3test.client := s3test.client p;
             s3test.sdk_world := s3test.sdk_world p;
             s3test.bucket_calls := s3test.bucket_calls p;
             s3test.printed :=
               (s3test.printed p ++ [s3test.Printf s3test.skip_message []])%list;
             s3test.failed := s3test.failed p |}).
Proof.
  unfold s3test.TestMain. destruct (s3test.useAWS fl); simpl; [|reflexivity].
  unfold bind at 1. unfold s3test.Dial_S3, s3test.WithKeyValue. simpl.
  rewrite (New_without_pathstyle _ (s3test.sdk_world p)
             (s3test.testRegion fl) (s3test.testBucket fl) ACLPublicRead).
  - reflexivity.
  - do 2 rewrite lookup_insert_ne by discriminate. apply lookup_insert_eq.
  - rewrite lookup_insert_ne by discriminate. apply lookup_insert_eq.
  - apply lookup_insert_eq.
  - do 3 rewrite lookup_insert_ne by discriminate. apply lookup_empty.
Qed.

Lemma string_of_bytes_eq (data : list byte) (s : string) :
  String.eqb (string_of_list_byte data) s = true <-> data = list_byte_of_string s.
Proof.
  rewrite String.eqb_eq. split.
  - intros <-. symmetry. apply list_byte_of_string_of_list_byte.
  - intros ->. apply string_of_list_byte_of_string.
Qed.

Lemma on_client_live {A : Type} (m : M (State R) A) (p : s3test.Process R) s :
  s3test.client p = Some s ->
  s3test.on_client m p
  = let (o, st) := m {| adapter := s; world := s3test.sdk_world p |} in
    (o, {| s3test.client := Some (adapter st);
           s3test.sdk_world := world st;
           s3test.bucket_calls := s3test.bucket_calls p;
           s3test.printed := s3test.printed p;
           s3test.failed := s3test.failed p |}).
Proof. intros Hc. unfold s3test.on_client. rewrite Hc. reflexivity. Qed.

(** [TestPutAndDownload] returns, and it passes exactly when the upload
    succeeds and the download that follows returns the very bytes that were
    put, whatever the client is. *)
Theorem TestPutAndDownload_passes_iff (testDataStr fileName : string)
    (p : s3test.Process R) (s : s3Impl) (svc : sdk.S3)
    (Hc : s3test.client p = Some s)
    (Hs : service s = Some svc)
    (Hf : s3test.failed p = false) :
  let up := {| sdk.ACL := defaultWriteACL s; sdk.Bucket := bucketName s;
               sdk.Key := fileName; sdk.Body := s3test.testData testDataStr |} in
  let dl := {| sdk.get_Bucket := bucketName s; sdk.get_Key := fileName |} in
  fst (s3test.TestPutAndDownload testDataStr fileName p) = Returned tt /\
  (s3test.failed (snd (s3test.TestPutAndDownload testDataStr fileName p)) = false <->
   exists r1 r2,
     sdk.Upload svc up (remote (s3test.sdk_world p)) = (None, r1) /\
     sdk.Download svc dl r1 = (inl (s3test.testData testDataStr), r2)).
Proof.
  intros up dl. subst up dl.
  destruct (s3test.TestPutAndDownload testDataStr fileName p) as [o p'] eqn:Hrun.
  unfold s3test.TestPutAndDownload in Hrun. unfold bind at 1 in Hrun.
  rewrite (on_client_live _ p s Hc) in Hrun.
  rewrite (Put_live {| adapter := s; world := s3test.sdk_world p |} svc _ _ Hs)
    in Hrun.
  simpl in Hrun |- *.
  destruct (sdk.Upload svc _ (remote (s3test.sdk_world p))) as [[e|] r1] eqn:Hup;
    try rewrite Hup in Hrun; simpl in Hrun.
  { injection Hrun as <- <-. simpl. split; [reflexivity|]. split; [discriminate|].
    intros (r1' & r2 & [=] & _). }
  unfold bind at 1 in Hrun. unfold after in Hrun. simpl in Hrun.
  unfold s3test.on_client in Hrun. simpl in Hrun.
  rewrite (Download_live {| adapter := s; world := _ |} svc _ Hs) in Hrun.
  simpl in Hrun.
  destruct (sdk.Download svc _ r1) as [[data|e] r2] eqn:Hdl; simpl in Hrun.
  - destruct (String.eqb (string_of_list_byte data) testDataStr) eqn:Heq;
      simpl in Hrun; injection Hrun as <- <-; simpl.
    + apply string_of_bytes_eq in Heq. subst data.
      split; [reflexivity|]. split; [|intros _; exact Hf].
      intros _. exists r1, r2. split; [reflexivity | exact Hdl].
    + split; [reflexivity|]. split; [discriminate|].
      intros (r1' & r2' & [= <-] & Hdl'). rewrite Hdl in Hdl'.
      injection Hdl' as Hdata _.
      assert (Htrue : String.eqb (string_of_list_byte data) testDataStr = true)
        by (apply string_of_bytes_eq; exact Hdata).
      congruence.
  - injection Hrun as <- <-. simpl.
    split; [reflexivity|]. split; [discriminate|].
    intros (r1' & r2' & [= <-] & Hdl'). rewrite Hdl in Hdl'. discriminate.
Qed.

(** [TestDelete] returns, and it passes exactly when the upload and the
    delete succeed and the download that follows fails; it passes on any
    error of that download, of whatever kind, not only on NotExist. *)
Theorem TestDelete_passes_iff (testDataStr fileName : string)
    (p : s3test.Process R) (s : s3Impl) (svc : sdk.S3)
    (Hc : s3test.client p = Some s)
    (Hs : service s = Some svc)
    (Hf : s3test.failed p = false) :
  let up := {| sdk.ACL := defaultWriteACL s; sdk.Bucket := bucketName s;
               sdk.Key := fileName; sdk.Body := s3test.testData testDataStr |} in
  let del := {| sdk.del_Bucket := bucketName s; sdk.del_Key := fileName |} in
  let dl := {| sdk.get_Bucket := bucketName s; sdk.get_Key := fileName |} in
  fst (s3test.TestDelete testDataStr fileName p) = Returned tt /\
  (s3test.failed (snd (s3test.TestDelete testDataStr fileName p)) = false <->
   exists r1 r2 e r3,
     sdk.Upload svc up (remote (s3test.sdk_world p)) = (None, r1) /\
     sdk.DeleteObject svc del r1 = (None, r2) /\
     sdk.Download svc dl r2 = (inr e, r3)).
Proof.
  intros up del dl. subst up del dl.
  destruct (s3test.TestDelete testDataStr fileName p) as [o p'] eqn:Hrun.
  unfold s3test.TestDelete in Hrun. unfold bind at 1 in Hrun.
  rewrite (on_client_live _ p s Hc) in Hrun.
  rewrite (Put_live {| adapter := s; world := s3test.sdk_world p |} svc _ _ Hs)
    in Hrun.
  simpl in Hrun |- *.
  destruct (sdk.Upload svc _ (remote (s3test.sdk_world p))) as [[e|] r1] eqn:Hup;
    try rewrite Hup in Hrun; simpl in Hrun.
  { injection Hrun as <- <-. simpl. split; [reflexivity|]. split; [discriminate|].
    intros (r1' & r2 & e' & r3 & [=] & _). }
  unfold bind at 1 in Hrun. unfold after in Hrun. simpl in Hrun.
  unfold s3test.on_client in Hrun. simpl in Hrun.
  rewrite (Delete_live {| adapter := s; world := _ |} svc _ Hs) in Hrun.
  simpl in Hrun.
  destruct (sdk.DeleteObject svc _ r1) as [[e|] r2] eqn:Hdel; simpl in Hrun.
  { injection Hrun as <- <-. simpl. split; [reflexivity|]. split; [discriminate|].
    intros (r1' & r2' & e' & r3 & [= <-] & Hdel' & _).
    rewrite Hdel in Hdel'. discriminate. }
  unfold bind at 1 in Hrun. unfold after in Hrun. simpl in Hrun.
  unfold s3test.on_client in Hrun. simpl in Hrun.
  rewrite (Download_live {| adapter := s; world := _ |} svc _ Hs) in Hrun.
  simpl in Hrun.
  destruct (sdk.Download svc _ r2) as [[data|e] r3] eqn:Hdl; simpl in Hrun;
    injection Hrun as <- <-; simpl.
  - split; [reflexivity|]. split; [discriminate|].
    intros (r1' & r2' & e' & r3' & [= <-] & Hdel' & Hdl').
    rewrite Hdel in Hdel'. injection Hdel' as <-.
    rewrite Hdl in Hdl'. discriminate.
  - split; [reflexivity|]. split; [|intros _; exact Hf].
    intros _. exists r1, r2, e, r3. repeat split; assumption.
Qed.

End TestFacts.

(** * Examples of the further properties *)

(** A misspelt key beside the five that are read. *)
Lemma New_reads_five_keys_witness :
  (forall k, k ∈ keys_read ->
     options "true" !! k = <["s3region" := "eu-west-1"]> (options "true") !! k) /\
  New (options "true") world0
  = New (<["s3region" := "eu-west-1"]> (options "true")) world0.
Proof.
  assert (H : forall k, k ∈ keys_read ->
            options "true" !! k = <["s3region" := "eu-west-1"]> (options "true") !! k).
  { intros k Hk. unfold keys_read in Hk.
    repeat (apply elem_of_cons in Hk as [-> | Hk]; [vm_compute; reflexivity|]).
    apply elem_of_nil in Hk. contradiction. }
  split; [exact H|].
  exact (New_reads_five_keys (options "true") _ world0 H).
Defined.

(** Valid options with a padded flag. *)
Lemma New_on_valid_options_witness :
  options " true" !! opt.regionName = Some "us-east-1" /\
  options " true" !! opt.bucketName = Some "test" /\
  options " true" !! opt.defaultACL = Some "private" /\
  options " true" !! opt.pathstyle = Some " true" /\
  TrimSpace " true" = "true" /\
  New (options " true") world0
  = (Returned (inl {| service := Some (fake.New {| session.sess_Config :=
                          {| aws.Region := Some "us-east-1";
                             aws.Endpoint := None;
                             aws.S3ForcePathStyle := Some true |} |});
                      bucketName := "test";
                      defaultWriteACL := "private" |}),
     {| remote := remote0;
        calls := [CallNewSession (session_options "us-east-1" None " true")] |}).
Proof.
  assert (Hr : options " true" !! opt.regionName = Some "us-east-1")
    by (vm_compute; reflexivity).
  assert (Hb : options " true" !! opt.bucketName = Some "test")
    by (vm_compute; reflexivity).
  assert (Ha : options " true" !! opt.defaultACL = Some "private")
    by (vm_compute; reflexivity).
  assert (Hp : options " true" !! opt.pathstyle = Some " true")
    by (vm_compute; reflexivity).
  assert (Ht : TrimSpace " true" = "true") by reflexivity.
  repeat (split; [assumption|]).
  rewrite (New_on_valid_options (options " true") world0 "us-east-1" "test"
             "private" " true" Hr Hb Ha Hp (or_introl Ht) (or_introl eq_refl)).
  vm_compute. reflexivity.
Defined.

(** Four calls, three uses of the SDK. *)
Lemma one_sdk_call_per_method_witness :
  service (adapter state0) = Some client0 /\
  calls (world (snd (run [OpPut "k1" bytes_hello; OpLinkBase; OpDownload "k1";
                          OpDelete "k1"] state0)))
  = [CallUpload client0 {| sdk.ACL := "private"; sdk.Bucket := "test";
                           sdk.Key := "k1"; sdk.Body := bytes_hello |};
     CallDownload client0 {| sdk.get_Bucket := "test"; sdk.get_Key := "k1" |};
     CallDeleteObject client0 {| sdk.del_Bucket := "test"; sdk.del_Key := "k1" |}].
Proof.
  split; [reflexivity|].
  rewrite (proj2 (one_sdk_call_per_method
                    [OpPut "k1" bytes_hello; OpLinkBase; OpDownload "k1"; OpDelete "k1"]
                    state0 client0 eq_refl)).
  reflexivity.
Defined.

(** The upload of an adapter that [New] made from the scenario's options. *)
Lemma uploads_of_a_new_adapter_witness :
  let w' := snd (New (options "false") world0) in
  let up := {| sdk.ACL := "private"; sdk.Bucket := "test";
               sdk.Key := "k1"; sdk.Body := bytes_hello |} in
  New (options "false") world0 = (Returned (inl adapter0), w') /\
  CallUpload client0 up ∈
    calls (world (snd (run [OpPut "k1" bytes_hello]
                         {| adapter := adapter0; world := w' |}))) /\
  options "false" !! opt.bucketName = Some "test" /\
  options "false" !! opt.defaultACL = Some "private".
Proof.
  intros w' up.
  assert (HNew : New (options "false") world0 = (Returned (inl adapter0), w'))
    by (vm_compute; reflexivity).
  assert (Hc : calls (world (snd (run [OpPut "k1" bytes_hello]
                                    {| adapter := adapter0; world := w' |})))
               = [CallNewSession (session_options "us-east-1" None "false");
                  CallUpload client0 up]) by (vm_compute; reflexivity).
  assert (Hin : CallUpload client0 up ∈
                calls (world (snd (run [OpPut "k1" bytes_hello]
                                     {| adapter := adapter0; world := w' |})))).
  { rewrite Hc. apply list_elem_of_further, list_elem_of_here. }
  split; [exact HNew|]. split; [exact Hin|].
  destruct (uploads_of_a_new_adapter (options "false") world0 w' adapter0
              [OpPut "k1" bytes_hello] client0 up HNew Hin) as [Hold | (Hb & Ha & _)].
  - apply elem_of_nil in Hold. contradiction.
  - split; assumption.
Defined.

(** An error of each of the four operations. *)
Lemma errors_are_of_three_kinds_witness :
  exists e,
    fst (Download "k1" (failing (requestFailure "SlowDown" 503))) = Returned (inr e) /\
    Op e = "cloud/storage/amazons3.Download" /\ (kind e = NotExist \/ kind e = IO).
Proof.
  eexists. split; [vm_compute; reflexivity|].
  apply (proj1 (proj2 (errors_are_of_three_kinds (options "true") world0
                         (failing (requestFailure "SlowDown" 503)) "k1" [] _))).
  vm_compute. reflexivity.
Defined.

(** The flag between a tab and a line break. *)
Lemma New_flag_may_be_padded_witness :
  Forall is_ascii_space [ascii_of_nat 9] /\
  Forall is_ascii_space [ascii_of_nat 32; ascii_of_nat 10] /\
  forall opts,
    New (<[opt.pathstyle := string_of_list_ascii [ascii_of_nat 9] +:+ "false"
                            +:+ string_of_list_ascii [ascii_of_nat 32; ascii_of_nat 10]]>
           opts) world0
    = New (<[opt.pathstyle := "false"]> opts) world0.
Proof.
  assert (Hl : Forall is_ascii_space [ascii_of_nat 9]).
  { repeat constructor; unfold is_ascii_space; simpl; tauto. }
  assert (Hr : Forall is_ascii_space [ascii_of_nat 32; ascii_of_nat 10]).
  { repeat constructor; unfold is_ascii_space; simpl; tauto. }
  split; [exact Hl|]. split; [exact Hr|]. intros opts.
  exact (New_flag_may_be_padded opts world0 _ _ false Hl Hr).
Defined.

(** A write that meets a transport failure. *)
Lemma Put_all_or_nothing_witness :
  service (adapter (failing (plainError "timeout"))) = Some client0 /\
  fake.buckets (remote (world (snd (Put "k1" bytes_hello (failing (plainError "timeout"))))))
  = fake.buckets (remote (world (failing (plainError "timeout")))).
Proof.
  split; [reflexivity|].
  apply (Put_all_or_nothing (fmt := fake.fmt) (failing (plainError "timeout"))
           client0 "k1" bytes_hello eq_refl).
  vm_compute. discriminate.
Defined.

(** Two refs, two blobs. *)
Lemma distinct_refs_independent_witness :
  let kvs := [("a", bytes_hello); ("b", [])] in
  service (adapter state0) = Some client0 /\
  fake.faults (remote (world state0)) = [] /\
  is_Some (fake.buckets (remote (world state0)) !! bucketName (adapter state0)) /\
  NoDup kvs.*1 /\
  fst (Download "a" (snd (run (map (fun kv => OpPut kv.1 kv.2) kvs) state0)))
  = Returned (inl bytes_hello).
Proof.
  intros kvs.
  assert (Hb : is_Some (fake.buckets (remote (world state0))
                          !! bucketName (adapter state0))).
  { exists ∅. vm_compute. reflexivity. }
  assert (Hnd : NoDup kvs.*1).
  { simpl. apply NoDup_cons. split; [|apply NoDup_singleton].
    intros Hin. apply list_elem_of_singleton in Hin. discriminate. }
  split; [reflexivity|]. split; [reflexivity|]. split; [exact Hb|].
  split; [exact Hnd|].
  apply (distinct_refs_independent (fmt := fake.fmt) kvs state0 client0
           eq_refl eq_refl Hb Hnd).
  apply list_elem_of_here.
Defined.

Ltac each_step Hin :=
  unfold cleanup_steps in Hin;
  repeat (apply elem_of_cons in Hin as [-> | Hin]; [simpl|]);
  [..|apply elem_of_nil in Hin; contradiction].

(** The bucket is gone and the role is in use: one line. *)
Lemma clean_reports_all_but_404_witness :
  (forall rw, rw ∈ cleanup_steps "upspinstorage" "bucket" "us-east-1" ->
     status_coded role_in_use rw.1) /\
  setup.clean role_in_use "upspinstorage" "bucket" "us-east-1" console0
  = (Returned tt,
     {| setup.output := ["Cleaning up...";
                         "unable to delete role upspinstorage: DeleteConflict"];
        setup.sent := (cleanup_steps "upspinstorage" "bucket" "us-east-1").*1 |}).
Proof.
  assert (H : forall rw, rw ∈ cleanup_steps "upspinstorage" "bucket" "us-east-1" ->
                status_coded role_in_use rw.1).
  { intros rw Hin e. each_step Hin; intros [= <-]; eauto; discriminate. }
  split; [exact H|].
  rewrite (clean_reports_all_but_404 role_in_use "upspinstorage" "bucket"
             "us-east-1" console0 H).
  reflexivity.
Defined.

(** Nothing of what the run would have created exists. *)
Lemma clean_of_nothing_is_quiet_witness :
  (forall rw, rw ∈ cleanup_steps "upspinstorage" "bucket" "us-east-1" ->
     nothing_there rw.1 = None \/
     exists e, nothing_there rw.1 = Some e /\ StatusCode e = Some 404) /\
  setup.output (snd (setup.clean nothing_there "upspinstorage" "bucket"
                       "us-east-1" console0))
  = ["Cleaning up..."].
Proof.
  assert (H : forall rw, rw ∈ cleanup_steps "upspinstorage" "bucket" "us-east-1" ->
                nothing_there rw.1 = None \/
                exists e, nothing_there rw.1 = Some e /\ StatusCode e = Some 404).
  { intros rw _. right. eexists. split; reflexivity. }
  split; [exact H|].
  exact (proj2 (clean_of_nothing_is_quiet nothing_there "upspinstorage" "bucket"
                  "us-east-1" console0 H)).
Defined.

(** The connection drops at the third request. *)
Lemma clean_stops_at_plain_failure_witness :
  (cleanup_steps "upspinstorage" "bucket" "us-east-1").*1 !! 2%nat
  = Some (setup.DeleteInstanceProfile "upspinstorage") /\
  fst (setup.clean connection_drops "upspinstorage" "bucket" "us-east-1" console0)
  = Panicked InterfaceConversion /\
  setup.sent (snd (setup.clean connection_drops "upspinstorage" "bucket"
                     "us-east-1" console0))
  = [setup.DeleteBucket "us-east-1" "bucket";
     setup.RemoveRoleFromInstanceProfile "upspinstorage" "upspinstorage";
     setup.DeleteInstanceProfile "upspinstorage"].
Proof.
  split; [reflexivity|].
  apply (clean_stops_at_plain_failure connection_drops "upspinstorage" "bucket"
           "us-east-1" console0 2 (setup.DeleteInstanceProfile "upspinstorage")
           (plainError "RequestError: send request failed")
           eq_refl eq_refl eq_refl).
  intros m r' Hlt Hm e.
  destruct m as [|[|m]]; [| |lia]; injection Hm as <-; discriminate.
Defined.

(** [clean] on an unreachable control plane does not return. *)
Lemma clean_returns_iff_witness :
  fst (setup.clean unreachable "upspinstorage" "bucket" "us-east-1" console0)
  <> Returned tt.
Proof.
  intros Hret.
  pose proof (proj1 (proj1 (clean_returns_iff unreachable "upspinstorage" "bucket"
                              "us-east-1" console0)) Hret) as Hall.
  destruct (Hall _ (list_elem_of_here _ _) _ eq_refl) as [code Hcode].
  discriminate.
Defined.

(** No bucket name on the command line. *)
Lemma main_checks_first_witness :
  length (setupstorage.args (flags0 false [])) <> 1%nat /\
  exists msg,
    setupstorage.main (env0 all_done nothing_there) (flags0 false []) machine0
    = (Returned (setupstorage.Exitf msg), machine0).
Proof.
  assert (H : length (setupstorage.args (flags0 false [])) <> 1%nat)
    by (simpl; lia).
  split; [exact H|].
  exact (main_checks_first (env0 all_done nothing_there) (flags0 false [])
           machine0 (or_intror (or_introl H))).
Defined.

(** [-clean] where nothing exists. *)
Lemma main_clean_only_cleans_witness :
  setupstorage.well_formed (flags0 true ["bucket"]) /\
  setupstorage.main (env0 all_done nothing_there) (flags0 true ["bucket"]) machine0
  = (Returned setupstorage.ExitNow,
     {| setupstorage.console :=
          {| setup.output := ["Cleaning up..."];
             setup.sent := (cleanup_steps "upspinstorage" "bucket" "us-east-1").*1 |};
        setupstorage.requests := [];
        setupstorage.stderr := [];
        setupstorage.files := files0 |}).
Proof.
  assert (Hwf : setupstorage.well_formed (flags0 true ["bucket"]))
    by (split; [reflexivity | discriminate]).
  split; [exact Hwf|].
  rewrite (main_clean_only_cleans (env0 all_done nothing_there)
             (flags0 true ["bucket"]) machine0 eq_refl Hwf eq_refl).
  reflexivity.
Defined.

(** The bucket name is taken: the role and the profile stay. *)
Lemma provisioning_stops_at_first_failure_witness :
  setupstorage.clean (flags0 false ["bucket"]) = false /\
  setupstorage.console
    (snd (setupstorage.main (env0 bucket_taken nothing_there)
            (flags0 false ["bucket"]) machine0))
  = console0 /\
  fst (setupstorage.main (env0 bucket_taken nothing_there)
         (flags0 false ["bucket"]) machine0)
  = Returned (setupstorage.Exitf "unable to create S3 bucket: BucketAlreadyExists").
Proof.
  split; [reflexivity|]. split.
  - exact (proj1 (provisioning_stops_at_first_failure (env0 bucket_taken nothing_there)
                    (flags0 false ["bucket"]) machine0 eq_refl)).
  - reflexivity.
Defined.

(** A run that goes through, and the file it writes. *)
Lemma provisioning_success_witness :
  setupstorage.well_formed (flags0 false ["bucket"]) /\
  setupstorage.main (env0 all_done nothing_there) (flags0 false ["bucket"]) machine0
  = (Returned setupstorage.ExitNow,
     {| setupstorage.console := console0;
        setupstorage.requests := setupstorage.provisioning (flags0 false ["bucket"]) role0;
        setupstorage.stderr :=
          ["You should now deploy the upspinserver binary and run 'upspin setupserver'."
           +:+ setupstorage.nl];
        setupstorage.files :=
          <["deploy/example.com" :=
              {| setupstorage.rest := tt;
                 setupstorage.StoreConfig := setup.StoreConfig "bucket" "us-east-1" |}]>
            files0 |}).
Proof.
  assert (Hwf : setupstorage.well_formed (flags0 false ["bucket"]))
    by (split; [reflexivity | discriminate]).
  split; [exact Hwf|].
  apply (provisioning_success (env0 all_done nothing_there) (flags0 false ["bucket"])
           machine0 role0
           {| setupstorage.rest := tt; setupstorage.StoreConfig := [] |}
           _ eq_refl Hwf eq_refl).
  - vm_compute. reflexivity.
  - reflexivity.
  - intros q _. exists (Some role0). reflexivity.
  - reflexivity.
Defined.

(** The file differs after the run that goes through. *)
Lemma config_written_only_after_all_steps_witness :
  setupstorage.files
    (snd (setupstorage.main (env0 all_done nothing_there)
            (flags0 false ["bucket"]) machine0)) <> files0 /\
  fst (setupstorage.main (env0 all_done nothing_there)
         (flags0 false ["bucket"]) machine0)
  = Returned setupstorage.ExitNow.
Proof.
  assert (H : setupstorage.files
                (snd (setupstorage.main (env0 all_done nothing_there)
                        (flags0 false ["bucket"]) machine0)) <> files0).
  { intros Heq.
    apply (f_equal (fun f => setupstorage.StoreConfig <$> f !! "deploy/example.com"))
      in Heq.
    vm_compute in Heq. discriminate. }
  split; [exact H|].
  exact (proj1 (config_written_only_after_all_steps (env0 all_done nothing_there)
                  (flags0 false ["bucket"]) machine0 H)).
Defined.

(** The two tests against the double of the service. *)
Lemma TestPutAndDownload_passes_iff_witness :
  s3test.client process0 = Some adapter0 /\
  service adapter0 = Some client0 /\
  s3test.failed process0 = false /\
  s3test.failed (snd (s3test.TestPutAndDownload "hello" "test-file-7" process0))
  = false.
Proof.
  repeat (split; [reflexivity|]).
  apply (TestPutAndDownload_passes_iff "hello" "test-file-7" process0 adapter0
           client0 eq_refl eq_refl eq_refl).
  do 2 eexists. split; vm_compute; reflexivity.
Defined.

Lemma TestDelete_passes_iff_witness :
  s3test.client process0 = Some adapter0 /\
  service adapter0 = Some client0 /\
  s3test.failed process0 = false /\
  s3test.failed (snd (s3test.TestDelete "hello" "test-file-7" process0)) = false.
Proof.
  repeat (split; [reflexivity|]).
  apply (TestDelete_passes_iff "hello" "test-file-7" process0 adapter0
           client0 eq_refl eq_refl eq_refl).
  do 4 eexists. split; [|split]; vm_compute; reflexivity.
Defined.
